(** * Staged fine-tuning loops: [train.py] and [distiller/teacher_train.py]

    A shallow embedding of the two training orchestrators of the
    repository.  Both files contain an _epoch loop runner_ ([train]) and a
    _staged controller_ ([train_kd] in [train.py], [training] in
    [distiller/teacher_train.py]).

    The tensor framework is an external collaborator: its numeric
    operations (forward pass, loss, autograd, the Adam update, the plateau
    policy) are the fields of the class [Framework].  Everything the two
    Python files themselves decide is written out: the epoch/phase/batch
    loops, the metric bookkeeping, the best-state update, which optimizer
    owns which parameters, the dynamic type of the value kept as "best",
    and the calls on the file system.

    Numbers that Python holds as floats are exact rationals ([Qc]) here.
    A data loader yields the same batches every time it is iterated.  Of
    the console output only the metrics line of each phase is kept; of a
    module's state only its parameters (no buffers). *)

From Stdlib Require Import Ascii QArith Qcanon.
From stdpp Require Import base option list strings gmap numbers.

Local Open Scope string_scope.
Local Open Scope list_scope.

(** ** Python values shared by both files *)

Inductive Phase := Train | Val.

Global Instance Phase_eq_dec : EqDecision Phase.
Proof. solve_decision. Defined.

(** The exceptions the modelled code can raise. *)
Inductive exn :=
  | AttributeError (attr : string)
  | IndexError
  | TypeError (what : string)
  | ValueError (what : string)
  | ZeroDivisionError
  | RuntimeError (what : string)
  | FileExistsError (path : string)
  | FileNotFoundError (path : string).

Inductive result (A : Type) :=
  | Ok (a : A)
  | Raise (e : exn).
Arguments Ok {A} a.
Arguments Raise {A} e.

Global Instance exn_eq_dec : EqDecision exn.
Proof. solve_decision. Defined.

(** Reading a result: did the call return, did it raise [e], and the
    value it returned ([d] if it raised). *)
Definition is_ok {A} (r : result A) : bool :=
  match r with
  | Ok _ => true
  | Raise _ => false
  end.

Definition raises {A} (e : exn) (r : result A) : bool :=
  match r with
  | Ok _ => false
  | Raise e' => bool_decide (e' = e)
  end.

Definition get {A} (d : A) (r : result A) : A :=
  match r with
  | Ok a => a
  | Raise _ => d
  end.

Definition rbind {A B} (r : result A) (k : A -> result B) : result B :=
  match r with
  | Ok a => k a
  | Raise e => Raise e
  end.

Notation "'try' x <- r ; k" := (rbind r (fun x => k))
  (at level 10, x pattern, r at level 99, k at level 200).

Definition qc (n : Z) (d : positive) : Qc := Q2Qc (n # d).
Definition Qc_of_nat (n : nat) : Qc := Q2Qc (inject_Z (Z.of_nat n)).

(** ReduceLROnPlateau's [mode]. *)
Inductive PlateauMode := ModeMin | ModeMax.

Global Instance PlateauMode_eq_dec : EqDecision PlateauMode.
Proof. solve_decision. Defined.

(** The keyword arguments the two files pass to [optim.Adam]. *)
Record AdamHyper := mkAdamHyper {
  lr : Qc;
  beta1 : Qc;
  beta2 : Qc;
  eps : Qc;
  weight_decay : Qc
}.

Definition set_lr (h : AdamHyper) (x : Qc) : AdamHyper :=
  mkAdamHyper x (beta1 h) (beta2 h) (eps h) (weight_decay h).

(** The keyword arguments the two files pass to [ReduceLROnPlateau]. *)
Record PlateauCfg := mkPlateauCfg {
  mode : PlateauMode;
  factor : Qc;
  patience : nat
}.

(** ** The tensor framework, as far as the two files use it *)

Class Framework := {
  Tensor : Type;
  Grad : Type;
  Datum : Type;
  AdamSlot : Type;
  PlateauState : Type;
  (** [torch.max(model(x), 1)] on one example: the predicted class.  The
      first argument is the module's training flag (dropout, batch norm). *)
  forward_argmax : bool -> list (string * Tensor) -> Datum -> nat;
  (** [criterion(outp, targets).item()]: the mean loss of one batch. *)
  cross_entropy : bool -> list (string * Tensor) -> list (Datum * nat) -> Qc;
  (** the gradient of the batch loss with respect to the parameter at an index *)
  autograd : bool -> list (string * Tensor) -> list (Datum * nat) -> nat -> Grad;
  grad_acc : Grad -> Grad -> Grad;
  (** one Adam update of one parameter *)
  adam : AdamHyper -> option AdamSlot -> Tensor -> Grad -> Tensor * AdamSlot;
  (** a fresh plateau scheduler, and one [scheduler.step(metric)]: the new
      internal state and the new learning rate of its optimizer *)
  plateau_init : PlateauCfg -> PlateauState;
  plateau : PlateauCfg -> PlateauState -> Qc -> Qc -> PlateauState * Qc
}.

(** ** Modules, state dicts, optimizers, schedulers, the file system *)

Section Torch.
Context {F : Framework}.

(** A parameter of a module.  [p_owner] is the name of the direct child
    (submodule) the parameter lives in. *)
Record Param := mkParam {
  p_owner : string;
  p_name : string;
  p_value : Tensor;
  p_requires_grad : bool;
  p_grad : option Grad
}.

Definition set_value (p : Param) (v : Tensor) : Param :=
  mkParam (p_owner p) (p_name p) v (p_requires_grad p) (p_grad p).
Definition set_requires_grad (p : Param) (b : bool) : Param :=
  mkParam (p_owner p) (p_name p) (p_value p) b (p_grad p).
Definition set_grad (p : Param) (g : option Grad) : Param :=
  mkParam (p_owner p) (p_name p) (p_value p) (p_requires_grad p) g.

(** An [nn.Module]: its class name, the names of its direct children in
    registration order, all its parameters in [parameters()] order, and
    the flag set by [.train()] / [.eval()].  A parameter is identified by
    its index in [params]. *)
Record Module := mkModule {
  class_name : string;
  children : list string;
  params : list Param;
  training : bool
}.

Definition set_params (m : Module) (ps : list Param) : Module :=
  mkModule (class_name m) (children m) ps (training m).
Definition set_training (m : Module) (b : bool) : Module :=
  mkModule (class_name m) (children m) (params m) b.

(** An ordered mapping from parameter name to value. *)
Definition StateDict := list (string * Tensor).

Definition param_key (p : Param) : string := p_owner p +:+ "." +:+ p_name p.

Definition state_dict (m : Module) : StateDict :=
  map (fun p => (param_key p, p_value p)) (params m).

(** What a Python variable such as [best_student] can hold. *)
Inductive PyObj :=
  | ObjModule (m : Module)
  | ObjStateDict (sd : StateDict).

(** [obj.state_dict()]: a module has the method, an [OrderedDict] has no
    such attribute. *)
Definition obj_state_dict (o : PyObj) : result StateDict :=
  match o with
  | ObjModule m => Ok (state_dict m)
  | ObjStateDict _ => Raise (AttributeError "state_dict")
  end.

Fixpoint fill_values (ps : list Param) (sd : StateDict) : list Param :=
  match ps, sd with
  | p :: ps', (_, v) :: sd' => set_value p v :: fill_values ps' sd'
  | _, _ => ps
  end.

(** [m.load_state_dict(o)] (strict): the argument must be a mapping whose
    keys are the module's own; a module passed in its place is rejected
    (a [TypeError] in current releases of the framework, an
    [AttributeError] on [copy] in older ones). *)
Definition load_state_dict (m : Module) (o : PyObj) : result Module :=
  match o with
  | ObjModule _ => Raise (TypeError "Expected state_dict to be dict-like")
  | ObjStateDict sd =>
      if decide (map fst sd = map fst (state_dict m))
      then Ok (set_params m (fill_values (params m) sd))
      else Raise (RuntimeError "Error(s) in loading state_dict")
  end.

(** [child.parameters()] for the child called [c]: indices into [params]. *)
Definition owned_by (c : string) (m : Module) : list nat :=
  omap (fun '(i, p) => if decide (p_owner p = c) then Some i else None)
       (imap (fun i p => (i, p)) (params m)).

Definition all_params (m : Module) : list nat := seq 0 (length (params m)).

(** [optim.Adam(params, ...)]: the parameters it owns, its hyper-parameters
    (the learning rate is rewritten by the scheduler) and its per-parameter
    state. *)
Record Optimizer := mkOptimizer {
  opt_scope : list nat;
  opt_hyper : AdamHyper;
  opt_state : gmap nat AdamSlot
}.

Definition Adam (scope : list nat) (h : AdamHyper) : result Optimizer :=
  match scope with
  | [] => Raise (ValueError "optimizer got an empty parameter list")
  | _ => Ok (mkOptimizer scope h ∅)
  end.

Record Scheduler := mkScheduler {
  sch_cfg : PlateauCfg;
  sch_state : PlateauState
}.

Definition ReduceLROnPlateau (c : PlateauCfg) : Scheduler :=
  mkScheduler c (plateau_init c).

(** The file system: the directories that exist, and the checkpoint files. *)
Record FS := mkFS {
  dirs : gset string;
  files : gmap string StateDict
}.

Definition isdir (fs : FS) (d : string) : bool := bool_decide (d ∈ dirs fs).

(** [os.makedirs(d)] without [exist_ok]. *)
Definition makedirs (fs : FS) (d : string) : result FS :=
  if bool_decide (d ∈ dirs fs) || bool_decide (d ∈ dom (files fs))
  then Raise (FileExistsError d)
  else Ok (mkFS ({[d]} ∪ dirs fs) (files fs)).

Definition path_join (d f : string) : string := d +:+ "/" +:+ f.

(** [os.path.dirname]: [None] when the path has no separator. *)
Fixpoint dirname (s : string) : option string :=
  match s with
  | EmptyString => None
  | String c r =>
      match dirname r with
      | Some d => Some (String c d)
      | None => if decide (c = "/"%char) then Some EmptyString else None
      end
  end.

Definition parent_exists (fs : FS) (path : string) : bool :=
  match dirname path with
  | None => true
  | Some d => bool_decide (d = EmptyString) || isdir fs d
  end.

(** [torch.save(sd, path)]: the file is opened for writing in its parent
    directory, which has to exist. *)
Definition torch_save (fs : FS) (sd : StateDict) (path : string) : result FS :=
  if parent_exists fs path
  then Ok (mkFS (dirs fs) (<[path := sd]> (files fs)))
  else Raise (FileNotFoundError path).

(** ** The state the loops run in, and what they do to the outside *)

(** The live objects a runner invocation works on.  [student] / [teacher]
    is mutated in place by the loops, the optimizer and the scheduler are
    the ones built by the controller for the current stage. *)
Record World := mkWorld {
  model : Module;
  optimizer : Optimizer;
  scheduler : Scheduler;
  disk : FS
}.

(** The calls a run makes on its collaborators, in program order. *)
Inductive Event :=
  | EvMode (train_mode : bool)
  | EvZeroGrad
  | EvBackward
  | EvOptStep
  | EvSchedStep (metric : Qc)
  | EvPrint (ph : Phase) (epoch_loss : Qc) (acc_pct : Qc)
  | EvSave (path : string) (sd : StateDict).

(** State, log and exceptions.  An exception aborts the run: nothing
    catches it in either file. *)
Definition M (A : Type) : Type := World -> result (A * World * list Event).

Definition ret {A} (a : A) : M A := fun w => Ok (a, w, []).

Definition bind {A B} (m : M A) (k : A -> M B) : M B :=
  fun w =>
    match m w with
    | Raise e => Raise e
    | Ok (a, w1, ev1) =>
        match k a w1 with
        | Raise e => Raise e
        | Ok (b, w2, ev2) => Ok (b, w2, ev1 ++ ev2)
        end
    end.

Definition lift {A} (r : result A) : M A :=
  fun w => match r with Ok a => Ok (a, w, []) | Raise e => Raise e end.

Definition emit (e : Event) : M unit := fun w => Ok (tt, w, [e]).

Definition get_model : M Module := fun w => Ok (model w, w, []).

Definition put_model (m : Module) : M unit :=
  fun w => Ok (tt, mkWorld m (optimizer w) (scheduler w) (disk w), []).

End Torch.

Notation "'do' x <- m ; k" := (bind m (fun x => k))
  (at level 10, x pattern, m at level 99, k at level 200).

Section Calls.
Context {F : Framework}.

Definition Batch : Type := list (Datum * nat).

(** [student.train()] / [student.eval()] *)
Definition set_mode (b : bool) : M unit :=
  do m <- get_model;
  do _ <- put_model (set_training m b);
  emit (EvMode b).

(** [optimizer.zero_grad()]: the gradients of the optimizer's own
    parameters are cleared. *)
Definition clear_grads (scope : list nat) (ps : list Param) : list Param :=
  imap (fun i p => if bool_decide (i ∈ scope) then set_grad p None else p) ps.

Definition zero_grad : M unit :=
  fun w =>
    Ok (tt,
        mkWorld (set_params (model w)
                   (clear_grads (opt_scope (optimizer w)) (params (model w))))
                (optimizer w) (scheduler w) (disk w),
        [EvZeroGrad]).

(** The forward pass on one batch: the loss and the number of correct
    arg-max predictions, [torch.sum(pred == targets.data)]. *)
Definition batch_loss (m : Module) (b : Batch) : Qc :=
  cross_entropy (training m) (state_dict m) b.

Definition batch_corrects (m : Module) (b : Batch) : nat :=
  length (filter (fun xt => forward_argmax (training m) (state_dict m) xt.1 = xt.2) b).

(** [loss.backward()]: every parameter that requires a gradient
    accumulates one; with no such parameter the loss has no graph. *)
Definition accumulate (g : Grad) (old : option Grad) : option Grad :=
  match old with
  | None => Some g
  | Some g0 => Some (grad_acc g0 g)
  end.

Definition backward (b : Batch) : M unit :=
  fun w =>
    let m := model w in
    if forallb (fun p => negb (p_requires_grad p)) (params m)
    then Raise (RuntimeError "element 0 of tensors does not require grad")
    else
      Ok (tt,
          mkWorld (set_params m
                     (imap (fun i p =>
                              if p_requires_grad p
                              then set_grad p
                                     (accumulate (autograd (training m) (state_dict m) b i)
                                                 (p_grad p))
                              else p)
                           (params m)))
                  (optimizer w) (scheduler w) (disk w),
          [EvBackward]).

(** [optimizer.step()]: one Adam update of every parameter the optimizer
    owns that has a gradient. *)
Definition step_param (h : AdamHyper) (acc : list Param * gmap nat AdamSlot) (i : nat)
  : list Param * gmap nat AdamSlot :=
  match acc.1 !! i with
  | Some p =>
      match p_grad p with
      | Some g =>
          let '(v, s) := adam h (acc.2 !! i) (p_value p) g in
          (<[i := set_value p v]> acc.1, <[i := s]> acc.2)
      | None => acc
      end
  | None => acc
  end.

Definition opt_step : M unit :=
  fun w =>
    let o := optimizer w in
    let '(ps, st) := foldl (step_param (opt_hyper o)) (params (model w), opt_state o) (opt_scope o) in
    Ok (tt,
        mkWorld (set_params (model w) ps)
                (mkOptimizer (opt_scope o) (opt_hyper o) st)
                (scheduler w) (disk w),
        [EvOptStep]).

(** [scheduler.step(metric)]: the plateau policy sees the metric and may
    rewrite the learning rate of the optimizer it was built on. *)
Definition sched_step (metric : Qc) : M unit :=
  fun w =>
    let o := optimizer w in
    let s := scheduler w in
    let '(st, new_lr) := plateau (sch_cfg s) (sch_state s) metric (lr (opt_hyper o)) in
    Ok (tt,
        mkWorld (model w)
                (mkOptimizer (opt_scope o) (set_lr (opt_hyper o) new_lr) (opt_state o))
                (mkScheduler (sch_cfg s) st)
                (disk w),
        [EvSchedStep metric]).

(** [torch.save(student.state_dict(), path)] *)
Definition save_model (path : string) : M unit :=
  fun w =>
    match torch_save (disk w) (state_dict (model w)) path with
    | Raise e => Raise e
    | Ok fs => Ok (tt, mkWorld (model w) (optimizer w) (scheduler w) fs,
                   [EvSave path (state_dict (model w))])
    end.

(** [running_corrects] starts as the Python float [0.0] ([None] here) and
    becomes a tensor with the first batch; only a tensor has [.double()]. *)
Definition add_corrects (rc : option nat) (c : nat) : option nat :=
  Some (default 0 rc + c).

Definition double (rc : option nat) : result Qc :=
  match rc with
  | Some c => Ok (Qc_of_nat c)
  | None => Raise (AttributeError "double")
  end.

(** [running_loss / dataset_sizes[phase]] on Python floats. *)
Definition float_div (x : Qc) (n : nat) : result Qc :=
  match n with
  | O => Raise ZeroDivisionError
  | S _ => Ok (x / Qc_of_nat n)%Qc
  end.

Definition is_train (ph : Phase) : bool := bool_decide (ph = Train).

(** The batch loop of one phase, the same statement for statement in both
    files: clear gradients, forward, on [train] backward and step, then
    the two running sums. *)
Fixpoint run_batches (ph : Phase) (bs : list Batch) (running_loss : Qc)
    (running_corrects : option nat) : M (Qc * option nat) :=
  match bs with
  | [] => ret (running_loss, running_corrects)
  | b :: bs' =>
      do _ <- zero_grad;
      do m <- get_model;
      let loss := batch_loss m b in
      let corr := batch_corrects m b in
      do _ <- (if is_train ph
               then do _ <- backward b; opt_step
               else ret tt);
      run_batches ph bs'
        (running_loss + loss * Qc_of_nat (length b))%Qc
        (add_corrects running_corrects corr)
  end.

End Calls.

(** The result of a controller stage: the checkpoint path in use, the
    best-state, the live objects and the calls made so far. *)
Record Run {F : Framework} := mkRun {
  r_path : string;
  r_best : PyObj;
  r_best_acc : Qc;
  r_world : World;
  r_log : list Event
}.

(** ** [train.py] *)

Module Student.
Section Src.
Context {F : Framework}.

(** [from data import loaders, dataset_sizes]: module-level globals. *)
Variable loaders : Phase -> list Batch.
Variable dataset_sizes : Phase -> nat.

(** Lines 24-59 of [train]: one phase up to its printed metrics.  Returns
    [(epoch_loss, epoch_acc)]. *)
Definition run_phase (ph : Phase) : M (Qc * Qc) :=
  do _ <- set_mode (is_train ph);
  do (running_loss, running_corrects) <- run_batches ph (loaders ph) 0%Qc None;
  do _ <- (if is_train ph
           then do rc <- lift (double running_corrects);
                let acc := (qc 100 1 * rc / Qc_of_nat (dataset_sizes ph))%Qc in
                sched_step acc
           else ret tt);
  do epoch_loss <- lift (float_div running_loss (dataset_sizes ph));
  do rc <- lift (double running_corrects);
  let epoch_acc := (rc / Qc_of_nat (dataset_sizes ph))%Qc in
  do _ <- emit (EvPrint ph epoch_loss (qc 100 1 * epoch_acc)%Qc);
  ret (epoch_loss, epoch_acc).

(** Lines 65-69: the best-state update. *)
Definition update_best (ph : Phase) (epoch_acc : Qc) (path_save_weight : string)
    (best : PyObj * Qc) : M (PyObj * Qc) :=
  if negb (is_train ph) && bool_decide (best.2 < epoch_acc)%Qc
  then
    do student <- get_model;
    let best_student := ObjStateDict (state_dict student) in
    do _ <- save_model path_save_weight;
    ret (best_student, epoch_acc)
  else ret best.

Definition phase_iter (path_save_weight : string) (best : PyObj * Qc) (ph : Phase)
  : M (PyObj * Qc) :=
  do (_, epoch_acc) <- run_phase ph;
  update_best ph epoch_acc path_save_weight best.

(** [for phase in ['train', 'val']] *)
Definition run_epoch (path_save_weight : string) (best : PyObj * Qc) : M (PyObj * Qc) :=
  do best1 <- phase_iter path_save_weight best Train;
  phase_iter path_save_weight best1 Val.

(** [train(student, best_student, best_acc, criterion, optimizer,
    scheduler, epochs, path_save_weight)]; the live student, optimizer and
    scheduler are the [World]. *)
Fixpoint train (epochs : nat) (path_save_weight : string) (best : PyObj * Qc)
  : M (PyObj * Qc) :=
  match epochs with
  | O => ret best
  | S n =>
      do best1 <- run_epoch path_save_weight best;
      train n path_save_weight best1
  end.

(** Lines 76-79 of [train_kd]. *)
Definition resolve_path (path_save_weight : option string) (student : Module) (fs : FS)
  : result (string * FS) :=
  match path_save_weight with
  | Some p => Ok (p, fs)
  | None =>
      try fs1 <- (if isdir fs "Weights" then makedirs fs "Weights" else Ok fs);
      Ok (path_join "Weights" (class_name student +:+ ".pth"), fs1)
  end.

(** [student.head.parameters()] *)
Definition head_parameters (student : Module) : result (list nat) :=
  if bool_decide ("head" ∈ children student)
  then Ok (owned_by "head" student)
  else Raise (AttributeError "head").

Definition optimizer1 : AdamHyper :=
  mkAdamHyper (qc 1 1000) (qc 9 10) (qc 999 1000) (qc 1 100000000) (qc 1 100000).
Definition scheduler1 : PlateauCfg := mkPlateauCfg ModeMax (qc 1 10) 3.

Definition optimizer2 : AdamHyper :=
  mkAdamHyper (qc 1 10000) (qc 9 10) (qc 999 1000) (qc 1 100000000) 0%Qc.
(** No [mode] is passed on line 110: the scheduler takes the framework's
    default, ['min']. *)
Definition scheduler2 : PlateauCfg := mkPlateauCfg ModeMin (qc 1 10) 2.

(** Lines 76-95: set-up and the first runner invocation. *)
Definition stage1 (epochs : nat) (student teacher : Module)
    (path_save_weight : option string) (fs : FS) : result Run :=
  try (path, fs1) <- resolve_path path_save_weight student fs;
  try scope <- head_parameters student;
  try optimizer <- Adam scope optimizer1;
  let scheduler := ReduceLROnPlateau scheduler1 in
  let best_student := ObjStateDict (state_dict student) in
  let best_acc := 0%Qc in
  try (best, w, log) <- train epochs path (best_student, best_acc)
                            (mkWorld student optimizer scheduler fs1);
  Ok (mkRun F path best.1 best.2 w log).

(** Lines 103-110: reload the best weights, unfreeze, rebuild optimizer and
    scheduler. *)
Definition unfreeze (r : Run) : result Run :=
  try student <- load_state_dict (model (r_world r)) (r_best r);
  let student := set_params student (map (fun p => set_requires_grad p true) (params student)) in
  try optimizer <- Adam (all_params student) optimizer2;
  let scheduler := ReduceLROnPlateau scheduler2 in
  Ok (mkRun F (r_path r) (r_best r) (r_best_acc r)
        (mkWorld student optimizer scheduler (disk (r_world r))) (r_log r)).

(** Lines 114-116: the second runner invocation. *)
Definition stage2 (epochs : nat) (r : Run) : result Run :=
  try (best, w, log) <- train epochs (r_path r) (r_best r, r_best_acc r) (r_world r);
  Ok (mkRun F (r_path r) best.1 best.2 w (r_log r ++ log)).

(** Lines 122-123: [torch.save(best_student.state_dict(), path_save_weight)]
    and the return. *)
Definition finish (r : Run) : result (PyObj * Run) :=
  try sd <- obj_state_dict (r_best r);
  try fs <- torch_save (disk (r_world r)) sd (r_path r);
  let w := r_world r in
  Ok (r_best r,
      mkRun F (r_path r) (r_best r) (r_best_acc r)
        (mkWorld (model w) (optimizer w) (scheduler w) fs)
        (r_log r ++ [EvSave (r_path r) sd])).

(** Lines 76-116: everything before the final save. *)
Definition stages (epochs : nat) (student teacher : Module)
    (path_save_weight : option string) (fs : FS) : result Run :=
  try r1 <- stage1 epochs student teacher path_save_weight fs;
  try r2 <- unfreeze r1;
  stage2 epochs r2.

Definition train_kd (epochs : nat) (student teacher : Module)
    (path_save_weight : option string) (fs : FS) : result (PyObj * Run) :=
  try r3 <- stages epochs student teacher path_save_weight fs;
  finish r3.

End Src.
End Student.

(** ** [distiller/teacher_train.py] *)

Module Teacher.
Section Src.
Context {F : Framework}.

Section Runner.
Variable loaders : Phase -> list Batch.
Variable dataset_sizes : Phase -> nat.

(** Lines 26-61 of [train]. *)
Definition run_phase (ph : Phase) : M (Qc * Qc) :=
  do _ <- set_mode (is_train ph);
  do (running_loss, running_corrects) <- run_batches ph (loaders ph) 0%Qc None;
  do epoch_loss <- lift (float_div running_loss (dataset_sizes ph));
  do rc <- lift (double running_corrects);
  let epoch_acc := (rc / Qc_of_nat (dataset_sizes ph))%Qc in
  do _ <- (if is_train ph
           then sched_step (qc 100 1 * epoch_acc)%Qc
           else ret tt);
  do _ <- emit (EvPrint ph epoch_loss (qc 100 1 * epoch_acc)%Qc);
  ret (epoch_loss, epoch_acc).

(** Lines 68-71: the best-state update; the best is a deep copy of the
    module itself. *)
Definition update_best (ph : Phase) (epoch_acc : Qc) (path_save_weight : string)
    (best : PyObj * Qc) : M (PyObj * Qc) :=
  if negb (is_train ph) && bool_decide (best.2 < epoch_acc)%Qc
  then
    do teacher <- get_model;
    let best_teacher := ObjModule teacher in
    do _ <- save_model path_save_weight;
    ret (best_teacher, epoch_acc)
  else ret best.

Definition phase_iter (path_save_weight : string) (best : PyObj * Qc) (ph : Phase)
  : M (PyObj * Qc) :=
  do (_, epoch_acc) <- run_phase ph;
  update_best ph epoch_acc path_save_weight best.

Definition run_epoch (path_save_weight : string) (best : PyObj * Qc) : M (PyObj * Qc) :=
  do best1 <- phase_iter path_save_weight best Train;
  phase_iter path_save_weight best1 Val.

Fixpoint train (epochs : nat) (path_save_weight : string) (best : PyObj * Qc)
  : M (PyObj * Qc) :=
  match epochs with
  | O => ret best
  | S n =>
      do best1 <- run_epoch path_save_weight best;
      train n path_save_weight best1
  end.

End Runner.

(** Lines 79-82 of [training]. *)
Definition resolve_path (path_save_weight : option string) (teacher : Module) (fs : FS)
  : result (string * FS) :=
  match path_save_weight with
  | Some p => Ok (p, fs)
  | None =>
      try fs1 <- (if negb (isdir fs "Weights") then makedirs fs "Weights" else Ok fs);
      Ok (path_join "Weights" (class_name teacher +:+ ".pth"), fs1)
  end.

(** [torch.cuda.get_device_name(0)] on line 84 needs a CUDA device. *)
Definition get_device_name (cuda : bool) : result unit :=
  if cuda then Ok tt else Raise (RuntimeError "no CUDA device").

(** [list(teacher.children())[-1].parameters()] *)
Definition last_child_parameters (teacher : Module) : result (list nat) :=
  match list.last (children teacher) with
  | Some c => Ok (owned_by c teacher)
  | None => Raise IndexError
  end.

Definition optimizer1 : AdamHyper :=
  mkAdamHyper (qc 1 1000) (qc 9 10) (qc 999 1000) (qc 1 100000000) (qc 1 100000).
Definition scheduler1 : PlateauCfg := mkPlateauCfg ModeMax (qc 1 2) 3.

Definition optimizer2 : AdamHyper :=
  mkAdamHyper (qc 1 10000) (qc 9 10) (qc 999 1000) (qc 1 100000000) 0%Qc.
(** No [mode] is passed on line 115: the framework's default, ['min']. *)
Definition scheduler2 : PlateauCfg := mkPlateauCfg ModeMin (qc 1 2) 2.

(** Lines 79-100. *)
Definition stage1 (cuda : bool) (loaders : Phase -> list Batch)
    (dataset_sizes : Phase -> nat) (epochs_freeze : nat) (teacher : Module)
    (path_save_weight : option string) (fs : FS) : result Run :=
  try (path, fs1) <- resolve_path path_save_weight teacher fs;
  try _ <- get_device_name cuda;
  try scope <- last_child_parameters teacher;
  try optimizer <- Adam scope optimizer1;
  let scheduler := ReduceLROnPlateau scheduler1 in
  let best_teacher := ObjModule teacher in
  let best_acc := 0%Qc in
  try (best, w, log) <- train loaders dataset_sizes epochs_freeze path
                            (best_teacher, best_acc)
                            (mkWorld teacher optimizer scheduler fs1);
  Ok (mkRun F path best.1 best.2 w log).

(** Lines 107-116. *)
Definition unfreeze (r : Run) : result Run :=
  try teacher <- load_state_dict (model (r_world r)) (r_best r);
  let teacher := set_params teacher (map (fun p => set_requires_grad p true) (params teacher)) in
  try optimizer <- Adam (all_params teacher) optimizer2;
  let scheduler := ReduceLROnPlateau scheduler2 in
  Ok (mkRun F (r_path r) (r_best r) (r_best_acc r)
        (mkWorld teacher optimizer scheduler (disk (r_world r))) (r_log r)).

(** Lines 118-121. *)
Definition stage2 (loaders : Phase -> list Batch) (dataset_sizes : Phase -> nat)
    (epochs_unfreeze : nat) (r : Run) : result Run :=
  try (best, w, log) <- train loaders dataset_sizes epochs_unfreeze (r_path r)
                            (r_best r, r_best_acc r) (r_world r);
  Ok (mkRun F (r_path r) best.1 best.2 w (r_log r ++ log)).

(** Lines 123-128. *)
Definition finish (r : Run) : result (PyObj * Run) :=
  try sd <- obj_state_dict (r_best r);
  try fs <- torch_save (disk (r_world r)) sd (r_path r);
  let w := r_world r in
  Ok (r_best r,
      mkRun F (r_path r) (r_best r) (r_best_acc r)
        (mkWorld (model w) (optimizer w) (scheduler w) fs)
        (r_log r ++ [EvSave (r_path r) sd])).

(** Lines 79-121: everything before the final save. *)
Definition stages (cuda : bool) (loaders : Phase -> list Batch)
    (dataset_sizes : Phase -> nat) (epochs_freeze epochs_unfreeze : nat)
    (teacher : Module) (path_save_weight : option string) (fs : FS) : result Run :=
  try r1 <- stage1 cuda loaders dataset_sizes epochs_freeze teacher path_save_weight fs;
  try r2 <- unfreeze r1;
  stage2 loaders dataset_sizes epochs_unfreeze r2.

Definition training (cuda : bool) (loaders : Phase -> list Batch)
    (dataset_sizes : Phase -> nat) (epochs_freeze epochs_unfreeze : nat)
    (teacher : Module) (path_save_weight : option string) (fs : FS)
  : result (PyObj * Run) :=
  try r3 <- stages cuda loaders dataset_sizes epochs_freeze epochs_unfreeze teacher
              path_save_weight fs;
  finish r3.

End Src.
End Teacher.

(** ** What is read off a log *)

Section Observations.
Context {F : Framework}.

(** the metrics the scheduler was stepped with, in order *)
Definition sched_metrics (ev : list Event) : list Qc :=
  omap (fun e => match e with EvSchedStep x => Some x | _ => None end) ev.

(** the checkpoint writes, in order *)
Definition saves (ev : list Event) : list (string * StateDict) :=
  omap (fun e => match e with EvSave p sd => Some (p, sd) | _ => None end) ev.

(** the accuracy percentages printed for a phase, in order *)
Definition printed_pcts (ph : Phase) (ev : list Event) : list Qc :=
  omap (fun e => match e with
                 | EvPrint ph' _ pct => if decide (ph' = ph) then Some pct else None
                 | _ => None
                 end) ev.

(** the validation accuracies of a run: the printed percentages, back on
    the scale of [epoch_acc] *)
Definition val_accs (ev : list Event) : list Qc :=
  map (fun pct => (pct / qc 100 1)%Qc) (printed_pcts Val ev).

(** how often [model.train()] was called: once at the start of each epoch *)
Definition epochs_run (ev : list Event) : nat :=
  length (omap (fun e => match e with EvMode true => Some tt | _ => None end) ev).

(** Every scheduler step, tagged with the phase it happened in: the phase
    is the one announced by the last [.train()] / [.eval()] call ([cur]
    before the first one). *)
Fixpoint sched_by_phase (cur : Phase) (ev : list Event) : list (Phase * Qc) :=
  match ev with
  | [] => []
  | EvMode b :: ev' => sched_by_phase (if b then Train else Val) ev'
  | EvSchedStep x :: ev' => (cur, x) :: sched_by_phase cur ev'
  | _ :: ev' => sched_by_phase cur ev'
  end.

(** The phase in force after a log, [cur] being the one before it. *)
Fixpoint phase_after (cur : Phase) (ev : list Event) : Phase :=
  match ev with
  | [] => cur
  | EvMode b :: ev' => phase_after (if b then Train else Val) ev'
  | _ :: ev' => phase_after cur ev'
  end.

(** Following the best accuracy along a sequence of validation
    accuracies: the accuracies that strictly beat everything before them. *)
Fixpoint improvements (best_acc : Qc) (accs : list Qc) : list Qc :=
  match accs with
  | [] => []
  | a :: accs' =>
      if bool_decide (best_acc < a)%Qc
      then a :: improvements a accs'
      else improvements best_acc accs'
  end.

(** the events of the batch loop *)
Definition batch_event (e : Event) : Prop :=
  e = EvZeroGrad \/ e = EvBackward \/ e = EvOptStep.

(** The running sums of a phase that takes no optimizer step, as functions
    of the weights. *)
Definition sum_loss (mode : bool) (sd : StateDict) (bs : list Batch) (acc : Qc) : Qc :=
  foldl (fun a b => (a + cross_entropy mode sd b * Qc_of_nat (length b))%Qc) acc bs.

Definition sum_corrects (mode : bool) (sd : StateDict) (bs : list Batch)
    (acc : option nat) : option nat :=
  foldl (fun a b =>
           add_corrects a
             (length (filter (fun xt => forward_argmax mode sd xt.1 = xt.2) b)))
        acc bs.

(** [qs] is [ps] after updates that touch at most the values of the
    parameters in [scope] (and any gradient). *)
Definition keeps (scope : list nat) (ps qs : list Param) : Prop :=
  length qs = length ps /\
  forall i p q, ps !! i = Some p -> qs !! i = Some q ->
    p_owner q = p_owner p /\ p_name q = p_name p /\
    p_requires_grad q = p_requires_grad p /\
    (i ∉ scope -> p_value q = p_value p).

(** What a runner invocation leaves alone: the shape of the module, the
    trainability flags, the values outside the optimizer's scope, the
    scope itself and the scheduler's configuration. *)
Definition stable (w w' : World) : Prop :=
  keeps (opt_scope (optimizer w)) (params (model w)) (params (model w')) /\
  opt_scope (optimizer w') = opt_scope (optimizer w) /\
  class_name (model w') = class_name (model w) /\
  children (model w') = children (model w) /\
  sch_cfg (scheduler w') = sch_cfg (scheduler w).

(** The same, for a step that changes no value at all. *)
Definition frozen (w w' : World) : Prop :=
  keeps [] (params (model w)) (params (model w')) /\
  training (model w') = training (model w) /\
  optimizer w' = optimizer w /\
  scheduler w' = scheduler w /\
  disk w' = disk w /\
  class_name (model w') = class_name (model w) /\
  children (model w') = children (model w).

(** The world right after [model.train()] / [model.eval()]. *)
Definition with_mode (b : bool) (w : World) : World :=
  mkWorld (set_training (model w) b) (optimizer w) (scheduler w) (disk w).

(** The log without the events of the batch loops. *)
Definition is_batch_event (e : Event) : bool :=
  match e with
  | EvZeroGrad | EvBackward | EvOptStep => true
  | _ => false
  end.

Definition coarse (ev : list Event) : list Event :=
  filter (fun e => is_batch_event e = false) ev.

(** The weights a best-state value stands for. *)
Definition obj_weights (o : PyObj) : StateDict :=
  match o with
  | ObjModule m => state_dict m
  | ObjStateDict sd => sd
  end.

(** The metrics of a validate phase, as a function of the weights: what
    lines 53-54 of [train.py] and 54-55 of [teacher_train.py] compute from
    the running sums of a loop that updates nothing. *)
Definition val_metrics (bs : list Batch) (n : nat) (sd : StateDict) : result (Qc * Qc) :=
  try epoch_loss <- float_div (sum_loss false sd bs 0%Qc) n;
  try rc <- double (sum_corrects false sd bs None);
  Ok (epoch_loss, (rc / Qc_of_nat n)%Qc).

(** The two source files side by side. *)
Inductive Source := TrainPy | TeacherTrainPy.

Definition run_phase_of (src : Source) :=
  match src with
  | TrainPy => Student.run_phase
  | TeacherTrainPy => Teacher.run_phase
  end.

Definition run_epoch_of (src : Source) :=
  match src with
  | TrainPy => Student.run_epoch
  | TeacherTrainPy => Teacher.run_epoch
  end.

Definition train_of (src : Source) :=
  match src with
  | TrainPy => Student.train
  | TeacherTrainPy => Teacher.train
  end.

(** What a runner stores as best checkpoint when validation improves. *)
Definition snapshot_of (src : Source) (m : Module) : PyObj :=
  match src with
  | TrainPy => ObjStateDict (state_dict m)
  | TeacherTrainPy => ObjModule m
  end.

(** The percentage the scheduler is stepped with: [c] correct predictions
    out of [n] examples. *)
Definition percent (c n : nat) : Qc := (qc 100 1 * Qc_of_nat c / Qc_of_nat n)%Qc.

(** One epoch, seen from outside: [c] correct predictions in the train
    phase, validation accuracy [av], and the write [sv] (if any). *)
Definition epoch_shape (src : Source) (loaders : Phase -> list Batch)
    (dataset_sizes : Phase -> nat) (path : string)
    (best : PyObj * Qc) (w : World) (best' : PyObj * Qc) (w' : World)
    (ev : list Event) : Prop :=
  exists (c : nat) (rl l1 l2 av : Qc) (w1 : World) (evb sv : list Event),
    run_batches Train (loaders Train) 0%Qc None (with_mode true w)
      = Ok ((rl, Some c), w1, evb) /\
    coarse ev =
      [EvMode true; EvSchedStep (percent c (dataset_sizes Train));
       EvPrint Train l1 (percent c (dataset_sizes Train));
       EvMode false; EvPrint Val l2 (qc 100 1 * av)%Qc] ++ sv /\
    stable w w' /\
    ((best.2 < av)%Qc /\ best' = (snapshot_of src (model w'), av) /\
       sv = [EvSave path (state_dict (model w'))] /\
       torch_save (disk w) (state_dict (model w')) path = Ok (disk w')
     \/
     ~ (best.2 < av)%Qc /\ best' = best /\ sv = [] /\ disk w' = disk w).

End Observations.

(** The controller steps that have the same shape in both files. *)
Definition unfreeze_of {F : Framework} (src : Source) : Run -> result Run :=
  match src with
  | TrainPy => Student.unfreeze
  | TeacherTrainPy => Teacher.unfreeze
  end.

(** Stage 1 of either controller; [epochs] is [train_kd]'s only epoch
    count and [training]'s [epochs_freeze]. *)
Definition stage1_of {F : Framework} (src : Source) (cuda : bool)
    (loaders : Phase -> list Batch) (dataset_sizes : Phase -> nat) (epochs : nat)
    (net teacher : Module) (path_save_weight : option string) (fs : FS) : result Run :=
  match src with
  | TrainPy => Student.stage1 loaders dataset_sizes epochs net teacher path_save_weight fs
  | TeacherTrainPy => Teacher.stage1 cuda loaders dataset_sizes epochs net path_save_weight fs
  end.

Definition stage2_of {F : Framework} (src : Source) :=
  match src with
  | TrainPy => Student.stage2
  | TeacherTrainPy => Teacher.stage2
  end.

Definition finish_of {F : Framework} (src : Source) : Run -> result (PyObj * Run) :=
  match src with
  | TrainPy => Student.finish
  | TeacherTrainPy => Teacher.finish
  end.

(** The head of a network, as each controller finds it. *)
Definition head_name {F : Framework} (src : Source) (m : Module) : option string :=
  match src with
  | TrainPy => if bool_decide ("head" ∈ children m) then Some "head" else None
  | TeacherTrainPy => list.last (children m)
  end.

(** What stage 1 does to the caller's network [net]: the optimizer owns
    the head's parameters, no trainability flag is touched, and a value
    changes only if the head owns the parameter. *)
Definition head_only_updates {F : Framework} (src : Source) (net : Module) (r1 : Run)
  : Prop :=
  exists head,
    head_name src net = Some head /\
    opt_scope (optimizer (r_world r1)) = owned_by head net /\
    length (params (model (r_world r1))) = length (params net) /\
    forall i p q,
      params net !! i = Some p -> params (model (r_world r1)) !! i = Some q ->
      p_owner q = p_owner p /\
      p_requires_grad q = p_requires_grad p /\
      (p_owner p <> head -> p_value q = p_value p).

(** ** The specification's wording, for comparison *)

(** "Mark only head parameters as trainable (backbone parameters frozen)":
    a parameter requires a gradient exactly when the head owns it. *)
Definition only_head_trainable {F : Framework} (head : string) (m : Module) : Prop :=
  forall p, p ∈ params m -> p_requires_grad p = true <-> p_owner p = head.

(** "A plateau-based scheduler monitoring validation accuracy (maximize,
    patience ~2-3 epochs, halving the learning rate on stagnation)". *)
Definition halving_max_plateau (c : PlateauCfg) : Prop :=
  mode c = ModeMax /\ factor c = qc 1 2 /\ 2 <= patience c <= 3.

(** "A frozen-stage epoch count, an unfrozen-stage epoch count": a
    controller call that runs [e1] epochs in stage 1 and [e2] in stage 2. *)
Definition runs_stage_epochs {F : Framework} (r1 r3 : Run) (e1 e2 : nat) : Prop :=
  epochs_run (r_log r1) = e1 /\ epochs_run (r_log r3) = e1 + e2.

(** ** A small concrete framework to run the loops on

    One example is a number, a tensor is a number, and the network
    predicts class 1 for an example exactly when it lies below the value
    of the last parameter.  An optimizer step moves a parameter along a
    fixed table, which makes the accuracies of successive epochs easy to
    read off. *)

Module Toy.

Definition threshold (sd : list (string * nat)) : nat :=
  match list.last sd with
  | Some (_, v) => v
  | None => 0
  end.

Definition predict (mode : bool) (sd : list (string * nat)) (x : nat) : nat :=
  if bool_decide (x < threshold sd) then 1 else 0.

Definition loss (mode : bool) (sd : list (string * nat)) (b : list (nat * nat)) : Qc :=
  Qc_of_nat (length (filter (fun xt => predict mode sd xt.1 ≠ xt.2) b)).

Definition next_value (v : nat) : nat :=
  match v with
  | 0 => 5
  | 5 => 7
  | 7 => 6
  | 6 => 9
  | _ => v
  end.

#[export] Instance framework : Framework := {|
  Tensor := nat;
  Grad := unit;
  Datum := nat;
  AdamSlot := unit;
  PlateauState := nat;
  forward_argmax := predict;
  cross_entropy := loss;
  autograd := fun _ _ _ _ => tt;
  grad_acc := fun _ _ => tt;
  adam := fun _ _ v _ => (next_value v, tt);
  plateau_init := fun _ => 0;
  plateau := fun _ n _ rate => (S n, rate)
|}.

(** A network with a one-parameter backbone and a one-parameter head, as
    [nn.Module] builds it: every parameter requires a gradient. *)
Definition net : Module :=
  mkModule "Net" ["backbone"; "head"]
    [mkParam "backbone" "weight" 3 true None; mkParam "head" "weight" 0 true None]
    true.

(** One training batch of one example; ten validation examples of class 1
    in one batch. *)
Definition loaders (ph : Phase) : list Batch :=
  match ph with
  | Train => [[(0, 1)]]
  | Val => [map (fun x => (x, 1)) (seq 0 10)]
  end.

Definition dataset_sizes (ph : Phase) : nat :=
  match ph with
  | Train => 1
  | Val => 10
  end.

(** An empty working directory, and one that holds [Weights]. *)
Definition fs0 : FS := mkFS ∅ ∅.
Definition fs_weights : FS := mkFS {["Weights"]} ∅.

Definition world0 : World :=
  mkWorld net (mkOptimizer [1] Student.optimizer1 ∅)
    (ReduceLROnPlateau Student.scheduler1) fs0.

(** The best-state a controller starts from, and the first results of
    running the two files on this network. *)
Definition best0 : PyObj * Qc := (ObjStateDict (state_dict net), 0%Qc).

Definition run0 : Run := mkRun framework "" (ObjStateDict []) 0%Qc world0 [].

Definition four_epochs (src : Source) : PyObj * Qc * World * list Event :=
  get (best0, world0, []) (train_of src loaders dataset_sizes 4 "best.pth" best0 world0).

Definition one_epoch (src : Source) : PyObj * Qc * World * list Event :=
  get (best0, world0, []) (run_epoch_of src loaders dataset_sizes "best.pth" best0 world0).

Definition one_val_phase (src : Source) : Qc * Qc * World * list Event :=
  get (0%Qc, 0%Qc, world0, []) (run_phase_of src loaders dataset_sizes Val world0).

Definition student_stage1 : Run :=
  get run0 (Student.stage1 loaders dataset_sizes 1 net net (Some "best.pth") fs0).
Definition student_unfrozen : Run := get run0 (Student.unfreeze student_stage1).
Definition student_stage2 : Run :=
  get run0 (Student.stage2 loaders dataset_sizes 1 student_unfrozen).

Definition student_stages : Run :=
  get run0 (Student.stages loaders dataset_sizes 1 net net (Some "best.pth") fs0).

Definition teacher_stage1 : Run :=
  get run0 (Teacher.stage1 true loaders dataset_sizes 1 net (Some "best.pth") fs0).
Definition teacher_stage2 : Run :=
  get run0 (Teacher.stage2 loaders dataset_sizes 2 teacher_stage1).

End Toy.


(** ** Conditions on the inputs of a run *)

Section Conditions.
Context {F : Framework}.

(** Some parameter of the module requires a gradient: what
    [loss.backward()] needs. *)
Definition has_trainable (m : Module) : bool := existsb p_requires_grad (params m).

(** The number of examples a loader yields in one pass. *)
Definition total_examples (bs : list Batch) : nat :=
  foldr (fun b n => length b + n) 0 bs.


End Conditions.

(** Further inputs for the small network: a loader without training
    batches, a network with every parameter frozen, phase sizes that
    understate the validation set, a best-state that cannot be beaten, and
    a world whose checkpoint path lies in a missing directory. *)
Module Edge.

Definition no_train_batches (ph : Phase) : list Batch :=
  match ph with
  | Train => []
  | Val => Toy.loaders Val
  end.

Definition zero_train_size (ph : Phase) : nat :=
  match ph with
  | Train => 0
  | Val => 10
  end.

Definition frozen_net : Module :=
  mkModule "Net" ["backbone"; "head"]
    [@mkParam Toy.framework "backbone" "weight" 3 false None;
     @mkParam Toy.framework "head" "weight" 0 false None]
    true.

Definition frozen_world : World :=
  mkWorld frozen_net (mkOptimizer [1] Student.optimizer1 ∅)
    (ReduceLROnPlateau Student.scheduler1) Toy.fs0.

(** A network without a [head] child, one whose [head] owns no parameter,
    and one without any child. *)
Definition headless_net : Module :=
  mkModule "Net" ["backbone"]
    [@mkParam Toy.framework "backbone" "weight" 3 true None] true.

Definition empty_head_net : Module :=
  mkModule "Net" ["backbone"; "head"]
    [@mkParam Toy.framework "backbone" "weight" 3 true None] true.

Definition childless_net : Module :=
  mkModule "Net" [] [@mkParam Toy.framework "" "weight" 3 true None] true.

Definition small_sizes (ph : Phase) : nat :=
  match ph with
  | Train => 1
  | Val => 5
  end.

Definition unbeatable : PyObj * Qc := (ObjStateDict (state_dict Toy.net), qc 1 1).

Definition two_epochs (src : Source) : PyObj * Qc * World * list Event :=
  get (Toy.best0, Toy.world0, [])
      (train_of src Toy.loaders Toy.dataset_sizes 2 "best.pth" Toy.best0 Toy.world0).

Definition unwritable_run (src : Source) : PyObj * Qc * World * list Event :=
  get (unbeatable, Toy.world0, [])
      (train_of src Toy.loaders Toy.dataset_sizes 2 "Weights/Net.pth" unbeatable Toy.world0).

Definition val_phase_small_sizes (src : Source) : Qc * Qc * World * list Event :=
  get (0%Qc, 0%Qc, Toy.world0, [])
      (run_phase_of src Toy.loaders small_sizes Val
         (mkWorld (set_params Toy.net
                     [@mkParam Toy.framework "backbone" "weight" 3 true None;
                      @mkParam Toy.framework "head" "weight" 9 true None])
                  (optimizer Toy.world0) (scheduler Toy.world0) Toy.fs0)).

End Edge.

(** ** Basic facts *)

Section Basics.
Context {F : Framework}.

Lemma bind_Ok {A B} (m : M A) (k : A -> M B) w b w2 ev :
  bind m k w = Ok (b, w2, ev) <->
  exists a w1 ev1 ev2,
    m w = Ok (a, w1, ev1) /\ k a w1 = Ok (b, w2, ev2) /\ ev = ev1 ++ ev2.
Proof.
  unfold bind. split.
  - destruct (m w) as [[[a w1] ev1]|e]; [|done].
    destruct (k a w1) as [[[b' w2'] ev2]|e] eqn:Hk; [|done].
    intros [= -> -> <-]. by exists a, w1, ev1, ev2.
  - intros (a & w1 & ev1 & ev2 & -> & -> & ->). done.
Qed.

Lemma ret_Ok {A} (a : A) w b w' ev :
  ret a w = Ok (b, w', ev) <-> b = a /\ w' = w /\ ev = [].
Proof. unfold ret. split; [by intros [= <- <- <-]|by intros (-> & -> & ->)]. Qed.

Lemma lift_Ok {A} (r : result A) w b w' ev :
  lift r w = Ok (b, w', ev) <-> r = Ok b /\ w' = w /\ ev = [].
Proof.
  unfold lift. destruct r; split; try done.
  - by intros [= <- <- <-].
  - by intros ([= ->] & -> & ->).
  - by intros (? & _).
Qed.

Lemma rbind_Ok {A B} (r : result A) (k : A -> result B) b :
  rbind r k = Ok b <-> exists a, r = Ok a /\ k a = Ok b.
Proof.
  destruct r; simpl; split; try done; eauto.
  - by intros (? & [= ->] & ?).
  - by intros (? & ? & ?).
Qed.

Lemma get_Ok {A} (d : A) (r : result A) : is_ok r = true -> r = Ok (get d r).
Proof. by destruct r. Qed.

Lemma get_Ok3 {A B C} (d : A * B * C) (r : result (A * B * C)) :
  is_ok r = true -> r = Ok ((get d r).1.1, (get d r).1.2, (get d r).2).
Proof. destruct r as [[[a b] c]|e]; done. Qed.

Lemma get_Ok4 {A A' B C} (d : A * A' * B * C) (r : result (A * A' * B * C)) :
  is_ok r = true ->
  r = Ok (((get d r).1.1.1, (get d r).1.1.2), (get d r).1.2, (get d r).2).
Proof. destruct r as [[[[a a'] b] c]|e]; done. Qed.

Lemma raises_Raise {A} (e : exn) (r : result A) : raises e r = true -> r = Raise e.
Proof.
  destruct r as [a|e']; [done|]. simpl. intros H.
  apply bool_decide_eq_true in H. by subst.
Qed.

Lemma keeps_refl scope ps : keeps scope ps ps.
Proof. split; [done|]. intros i p q Hp Hq. by simplify_eq. Qed.

Lemma keeps_trans scope ps qs rs :
  keeps scope ps qs -> keeps scope qs rs -> keeps scope ps rs.
Proof.
  intros [Hl1 H1] [Hl2 H2]. split; [congruence|].
  intros i p r Hp Hr.
  destruct (lookup_lt_is_Some_2 qs i) as [q Hq].
  { rewrite Hl1. by eapply lookup_lt_Some. }
  destruct (H1 i p q Hp Hq) as (? & ? & ? & Hv1).
  destruct (H2 i q r Hq Hr) as (? & ? & ? & Hv2).
  repeat split; try congruence.
  intros Hi. rewrite Hv2, Hv1; done.
Qed.

Lemma keeps_weaken scope ps qs : keeps [] ps qs -> keeps scope ps qs.
Proof.
  intros [Hl H]. split; [done|]. intros i p q Hp Hq.
  destruct (H i p q Hp Hq) as (? & ? & ? & Hv). repeat split; try done.
  intros _. apply Hv. apply not_elem_of_nil.
Qed.

Lemma keeps_nil_values ps qs :
  keeps [] ps qs ->
  map (fun p => (param_key p, p_value p)) qs = map (fun p => (param_key p, p_value p)) ps.
Proof.
  intros [Hl H]. apply list_eq. intros i. rewrite !list_lookup_fmap.
  destruct (qs !! i) as [q|] eqn:Hq.
  - destruct (lookup_lt_is_Some_2 ps i) as [p Hp].
    { rewrite <- Hl. by eapply lookup_lt_Some. }
    rewrite Hp. simpl. destruct (H i p q Hp Hq) as (Ho & Hn & _ & Hv).
    unfold param_key. rewrite Ho, Hn, Hv; [done|apply not_elem_of_nil].
  - apply lookup_ge_None in Hq. rewrite Hl in Hq.
    apply lookup_ge_None in Hq. by rewrite Hq.
Qed.

Lemma keeps_keys scope ps qs :
  keeps scope ps qs -> map param_key qs = map param_key ps.
Proof.
  intros [Hl H]. apply list_eq. intros i. rewrite !list_lookup_fmap.
  destruct (qs !! i) as [q|] eqn:Hq.
  - destruct (lookup_lt_is_Some_2 ps i) as [p Hp].
    { rewrite <- Hl. by eapply lookup_lt_Some. }
    rewrite Hp. simpl. destruct (H i p q Hp Hq) as (Ho & Hn & _).
    unfold param_key. by rewrite Ho, Hn.
  - apply lookup_ge_None in Hq. rewrite Hl in Hq.
    apply lookup_ge_None in Hq. by rewrite Hq.
Qed.

Lemma stable_refl w : stable w w.
Proof. split; [apply keeps_refl|done]. Qed.

Lemma stable_trans w1 w2 w3 : stable w1 w2 -> stable w2 w3 -> stable w1 w3.
Proof.
  intros (K1 & S1 & C1 & D1 & G1) (K2 & S2 & C2 & D2 & G2).
  rewrite S1 in K2.
  split; [by eapply keeps_trans|]. repeat split; congruence.
Qed.

Lemma frozen_refl w : frozen w w.
Proof. split; [apply keeps_refl|done]. Qed.

Lemma frozen_trans w1 w2 w3 : frozen w1 w2 -> frozen w2 w3 -> frozen w1 w3.
Proof.
  intros (K1 & ? & ? & ? & ? & ? & ?) (K2 & ? & ? & ? & ? & ? & ?).
  split; [by eapply keeps_trans|]. repeat split; congruence.
Qed.

Lemma frozen_stable w w' : frozen w w' -> stable w w'.
Proof.
  intros (K & ? & Ho & Hs & ? & ? & ?).
  split; [by apply keeps_weaken|]. rewrite Ho, Hs. done.
Qed.

Lemma frozen_state_dict w w' : frozen w w' -> state_dict (model w') = state_dict (model w).
Proof. intros (K & _). unfold state_dict. by apply keeps_nil_values. Qed.

End Basics.

(** ** The framework calls, one by one *)

Section Primitives.
Context {F : Framework}.

Lemma clear_grads_keeps scope ps : keeps [] ps (clear_grads scope ps).
Proof.
  split; [apply length_imap|]. intros i p q Hp Hq.
  unfold clear_grads in Hq. rewrite list_lookup_imap, Hp in Hq. simpl in Hq.
  case_bool_decide; by simplify_eq.
Qed.

Lemma zero_grad_spec w :
  exists w', zero_grad w = Ok (tt, w', [EvZeroGrad]) /\ frozen w w'.
Proof.
  eexists. split; [reflexivity|]. split; [apply clear_grads_keeps|done].
Qed.

Lemma backward_spec b w u w' ev :
  backward b w = Ok (u, w', ev) -> frozen w w' /\ ev = [EvBackward].
Proof.
  unfold backward. case_match; [done|]. intros [= <- <- <-].
  split; [|done]. split; [|done]. simpl.
  split; [apply length_imap|]. intros i p q Hp Hq.
  rewrite list_lookup_imap, Hp in Hq. simpl in Hq.
  case_match; by simplify_eq.
Qed.

Lemma insert_keeps scope (ps : list Param) i p v :
  i ∈ scope -> ps !! i = Some p -> keeps scope ps (<[i := set_value p v]> ps).
Proof.
  intros Hi Hp. split; [apply length_insert|]. intros j p' q Hp' Hq.
  destruct (decide (i = j)) as [<-|Hne].
  - rewrite list_lookup_insert_eq in Hq by (by eapply lookup_lt_Some).
    by simplify_eq.
  - rewrite list_lookup_insert_ne in Hq by done. by simplify_eq.
Qed.

Lemma step_param_keeps h scope ps acc i :
  i ∈ scope -> keeps scope ps acc.1 -> keeps scope ps (step_param h acc i).1.
Proof.
  intros Hi K. unfold step_param.
  destruct (acc.1 !! i) as [p|] eqn:Hp; [|done].
  destruct (p_grad p) as [g|]; [|done].
  destruct (adam h (acc.2 !! i) (p_value p) g) as [v s]. simpl.
  eapply keeps_trans; [exact K|]. by apply insert_keeps.
Qed.

Lemma foldl_step_keeps h scope l ps acc :
  (forall i, i ∈ l -> i ∈ scope) -> keeps scope ps acc.1 ->
  keeps scope ps (foldl (step_param h) acc l).1.
Proof.
  revert acc. induction l as [|i l IH]; intros acc Hl K; [done|].
  simpl. apply IH.
  - intros j Hj. apply Hl. by right.
  - apply step_param_keeps; [apply Hl; by left|done].
Qed.

Lemma opt_step_spec w :
  exists w', opt_step w = Ok (tt, w', [EvOptStep]) /\ stable w w' /\
    training (model w') = training (model w) /\
    scheduler w' = scheduler w /\ disk w' = disk w.
Proof.
  unfold opt_step.
  pose proof (foldl_step_keeps (opt_hyper (optimizer w)) (opt_scope (optimizer w))
                (opt_scope (optimizer w)) (params (model w))
                (params (model w), opt_state (optimizer w))
                (fun _ H => H) (keeps_refl _ _)) as K.
  destruct (foldl _ _ _) as [ps st]. eexists. split; [reflexivity|].
  split; [|done]. split; [exact K|done].
Qed.

Lemma sched_step_spec x w :
  exists w', sched_step x w = Ok (tt, w', [EvSchedStep x]) /\
    model w' = model w /\
    opt_scope (optimizer w') = opt_scope (optimizer w) /\
    sch_cfg (scheduler w') = sch_cfg (scheduler w) /\
    disk w' = disk w.
Proof.
  unfold sched_step. destruct (plateau _ _ _ _) as [st new_lr].
  eexists. split; [reflexivity|done].
Qed.

Lemma sched_step_stable x w u w' ev :
  sched_step x w = Ok (u, w', ev) -> stable w w' /\ disk w' = disk w /\ ev = [EvSchedStep x].
Proof.
  destruct (sched_step_spec x w) as (w1 & -> & Hm & Hs & Hc & Hd).
  intros [= <- <- <-]. split; [|done].
  split; [rewrite Hm; apply keeps_refl|]. rewrite Hm. done.
Qed.

Lemma save_model_spec path w u w' ev :
  save_model path w = Ok (u, w', ev) ->
  model w' = model w /\ optimizer w' = optimizer w /\ scheduler w' = scheduler w /\
  ev = [EvSave path (state_dict (model w))] /\
  torch_save (disk w) (state_dict (model w)) path = Ok (disk w').
Proof.
  unfold save_model. destruct (torch_save _ _ _) as [fs|e]; [|done].
  by intros [= <- <- <-].
Qed.

Lemma set_mode_spec b w : set_mode b w = Ok (tt, with_mode b w, [EvMode b]).
Proof. reflexivity. Qed.

Lemma with_mode_stable b w : stable w (with_mode b w).
Proof. split; [apply keeps_refl|done]. Qed.

(** The batch loop of a phase without parameter updates is total, leaves
    every value alone and computes the running sums from the weights. *)
Lemma run_batches_val bs rl rc w :
  exists w' ev,
    run_batches Val bs rl rc w =
      Ok ((sum_loss (training (model w)) (state_dict (model w)) bs rl,
           sum_corrects (training (model w)) (state_dict (model w)) bs rc), w', ev) /\
    frozen w w' /\ Forall (fun e => e = EvZeroGrad) ev.
Proof.
  revert rl rc w. induction bs as [|b bs IH]; intros rl rc w.
  - exists w, []. split; [done|]. split; [apply frozen_refl|constructor].
  - destruct (zero_grad_spec w) as (w1 & Hz & Hf).
    destruct (IH (rl + batch_loss (model w1) b * Qc_of_nat (length b))%Qc
                 (add_corrects rc (batch_corrects (model w1) b)) w1)
      as (w2 & ev & Hr & Hf2 & Hev).
    exists w2, (EvZeroGrad :: ev). split; [|split].
    + cbn [run_batches]. unfold bind at 1. rewrite Hz.
      unfold bind at 1. unfold get_model at 1.
      unfold bind at 1. cbn [is_train bool_decide decide_rel]. 
      replace (is_train Val) with false by done. unfold ret at 1.
      rewrite Hr. cbn [app]. unfold batch_loss, batch_corrects.
      pose proof (frozen_state_dict _ _ Hf) as Hsd.
      destruct Hf as (_ & Ht & _). rewrite Hsd, Ht. done.
    + by eapply frozen_trans.
    + by constructor.
Qed.

Lemma run_batches_spec ph bs rl rc w r w' ev :
  run_batches ph bs rl rc w = Ok (r, w', ev) ->
  stable w w' /\ scheduler w' = scheduler w /\ disk w' = disk w /\
  training (model w') = training (model w) /\ Forall batch_event ev.
Proof.
  revert rl rc w r w' ev. induction bs as [|b bs IH]; intros rl rc w r w' ev.
  - intros [= <- <- <-]. split; [apply stable_refl|]. repeat split; constructor.
  - cbn [run_batches]. intros H.
    apply bind_Ok in H as ([] & w1 & ev1 & ev2 & Hz & H & ->).
    destruct (zero_grad_spec w) as (w1' & Hz' & Hf). rewrite Hz' in Hz.
    injection Hz as <- <-.
    apply bind_Ok in H as (m & w2 & ev3 & ev4 & Hg & H & ->).
    injection Hg as <- <- <-.
    apply bind_Ok in H as ([] & w3 & ev5 & ev6 & Hs & H & ->).
    apply IH in H as (S3 & Hsch & Hd & Ht & Hev).
    assert (stable w1' w3 /\ scheduler w3 = scheduler w1' /\ disk w3 = disk w1' /\
            training (model w3) = training (model w1') /\ Forall batch_event ev5)
      as (S2 & Hsch2 & Hd2 & Ht2 & Hev2).
    { destruct (is_train ph).
      - apply bind_Ok in Hs as ([] & w4 & ev7 & ev8 & Hb & Ho & ->).
        apply backward_spec in Hb as [Hfb ->].
        destruct (opt_step_spec w4) as (w5 & Ho' & So & Hto & Hso & Hdo).
        rewrite Ho' in Ho. injection Ho as <- <-.
        pose proof (frozen_stable _ _ Hfb) as Sb.
        destruct Hfb as (Kb & Htb & Hob & Hsb & Hdb & Hcb & Hchb).
        split; [by eapply stable_trans|].
        repeat split; try congruence.
        simpl. repeat (constructor; [unfold batch_event; auto|]). constructor.
      - injection Hs as <- <-. split; [apply stable_refl|].
        repeat split; constructor. }
    pose proof (frozen_stable _ _ Hf) as Sf.
    destruct Hf as (Kf & Htf & Hof & Hsf & Hdf & Hcf & Hchf).
    split; [|repeat split; try congruence].
    + eapply stable_trans; [exact Sf|by eapply stable_trans].
    + constructor; [unfold batch_event; auto|]. cbn [app].
      apply Forall_app. done.
Qed.

End Primitives.

(** ** One phase, one epoch *)

Section Phases.
Context {F : Framework}.
Variable loaders : Phase -> list Batch.
Variable dataset_sizes : Phase -> nat.

Lemma coarse_app ev1 ev2 : coarse (ev1 ++ ev2) = coarse ev1 ++ coarse ev2.
Proof. apply list.filter_app. Qed.

Lemma coarse_batch ev : Forall batch_event ev -> coarse ev = [].
Proof.
  induction 1 as [|e ev He _ IH]; [done|].
  unfold coarse in *. rewrite filter_cons, IH.
  destruct He as [->|[->| ->]]; done.
Qed.

Lemma percent_alt c n :
  (qc 100 1 * (Qc_of_nat c / Qc_of_nat n))%Qc = percent c n.
Proof. unfold percent, Qcdiv. ring. Qed.

(** The validate phase, in both files: total up to its metrics, which
    depend on the weights alone, and without effect on any value. *)
Lemma run_phase_val src w :
  exists w' evb,
    frozen (with_mode false w) w' /\ Forall (fun e => e = EvZeroGrad) evb /\
    run_phase_of src loaders dataset_sizes Val w =
      match val_metrics (loaders Val) (dataset_sizes Val) (state_dict (model w)) with
      | Raise e => Raise e
      | Ok (l, a) =>
          Ok ((l, a), w', EvMode false :: evb ++ [EvPrint Val l (qc 100 1 * a)%Qc])
      end.
Proof.
  destruct (run_batches_val (loaders Val) 0%Qc None (with_mode false w))
    as (w' & evb & Hr & Hf & Hev).
  exists w', evb. split; [done|]. split; [done|].
  change (training (model (with_mode false w))) with false in Hr.
  change (state_dict (model (with_mode false w))) with (state_dict (model w)) in Hr.
  unfold val_metrics.
  destruct src; unfold run_phase_of, Student.run_phase, Teacher.run_phase;
    unfold bind at 1; rewrite set_mode_spec;
    change (is_train Val) with false;
    unfold bind at 1; rewrite Hr;
    destruct (float_div _ _) as [l|e]; [|done| |done];
    destruct (double _) as [rc|e]; done.
Qed.

Lemma emit_Ok e w u w' ev : emit e w = Ok (u, w', ev) -> w' = w /\ ev = [e].
Proof. by intros [= <- <-]. Qed.

(** The train phase, in both files. *)
Lemma run_phase_train src w l a w' ev :
  run_phase_of src loaders dataset_sizes Train w = Ok ((l, a), w', ev) ->
  exists c rl w1 evb,
    run_batches Train (loaders Train) 0%Qc None (with_mode true w)
      = Ok ((rl, Some c), w1, evb) /\
    coarse ev = [EvMode true; EvSchedStep (percent c (dataset_sizes Train));
                 EvPrint Train l (percent c (dataset_sizes Train))] /\
    a = (Qc_of_nat c / Qc_of_nat (dataset_sizes Train))%Qc /\
    stable w w' /\ disk w' = disk w.
Proof.
  intros H.
  destruct src; unfold run_phase_of, Student.run_phase, Teacher.run_phase in H;
    change (is_train Train) with true in H;
    apply bind_Ok in H as ([] & w0 & ev0 & ev0' & Hm & H & ->);
    rewrite set_mode_spec in Hm; injection Hm as <- <-;
    apply bind_Ok in H as ([rl rc] & w1 & evb & ev1' & Hb & H & ->);
    pose proof (run_batches_spec _ _ _ _ _ _ _ _ Hb) as (S1 & _ & D1 & _ & Hevb).
  - apply bind_Ok in H as ([] & w2 & ev2 & ev2' & Hs & H & ->).
    apply bind_Ok in Hs as (x & w3 & ev3 & ev3' & Hd & Hs & ->).
    apply lift_Ok in Hd as (Hd & -> & ->).
    destruct rc as [c|]; [|done]. injection Hd as <-.
    apply sched_step_stable in Hs as (S2 & D2 & ->).
    apply bind_Ok in H as (l' & w4 & ev4 & ev4' & Hl & H & ->).
    apply lift_Ok in Hl as (Hl & -> & ->).
    apply bind_Ok in H as (x & w5 & ev5 & ev5' & Hd & H & ->).
    apply lift_Ok in Hd as ([= <-] & -> & ->).
    apply bind_Ok in H as ([] & w6 & ev6 & ev6' & He & H & ->).
    apply emit_Ok in He as (-> & ->).
    apply ret_Ok in H as ([= -> ->] & -> & ->).
    exists c, rl, w1, evb. split; [done|]. split; [|split; [done|split]].
    + change (EvMode true :: evb ++ ?r) with ([EvMode true] ++ evb ++ r).
      rewrite !coarse_app, (coarse_batch evb Hevb). simpl.
      rewrite ?percent_alt. done.
    + eapply stable_trans; [apply (with_mode_stable true)|].
      by eapply stable_trans.
    + by rewrite D2, D1.
  - apply bind_Ok in H as (l' & w4 & ev4 & ev4' & Hl & H & ->).
    apply lift_Ok in Hl as (Hl & -> & ->).
    apply bind_Ok in H as (x & w5 & ev5 & ev5' & Hd & H & ->).
    apply lift_Ok in Hd as (Hd & -> & ->).
    destruct rc as [c|]; [|done]. injection Hd as <-.
    apply bind_Ok in H as ([] & w2 & ev2 & ev2' & Hs & H & ->).
    apply sched_step_stable in Hs as (S2 & D2 & ->).
    apply bind_Ok in H as ([] & w6 & ev6 & ev6' & He & H & ->).
    apply emit_Ok in He as (-> & ->).
    apply ret_Ok in H as ([= -> ->] & -> & ->).
    exists c, rl, w1, evb. split; [done|]. split; [|split; [done|split]].
    + change (EvMode true :: evb ++ ?r) with ([EvMode true] ++ evb ++ r).
      rewrite !coarse_app, (coarse_batch evb Hevb). simpl.
      rewrite ?percent_alt. done.
    + eapply stable_trans; [apply (with_mode_stable true)|].
      by eapply stable_trans.
    + by rewrite D2, D1.
Qed.

(** The best-state update, in both files. *)
Lemma update_best_spec src ph acc path best w best' w' ev :
  match src with
  | TrainPy => Student.update_best
  | TeacherTrainPy => Teacher.update_best
  end ph acc path best w = Ok (best', w', ev) ->
  model w' = model w /\ optimizer w' = optimizer w /\ scheduler w' = scheduler w /\
  (ph = Val /\ (best.2 < acc)%Qc /\ best' = (snapshot_of src (model w), acc) /\
     ev = [EvSave path (state_dict (model w))] /\
     torch_save (disk w) (state_dict (model w)) path = Ok (disk w')
   \/
   ~ (ph = Val /\ (best.2 < acc)%Qc) /\ best' = best /\ ev = [] /\ w' = w).
Proof.
  intros H.
  assert (negb (is_train ph) && bool_decide (best.2 < acc)%Qc = true
          <-> ph = Val /\ (best.2 < acc)%Qc) as Hc.
  { rewrite andb_true_iff, bool_decide_eq_true. unfold is_train.
    destruct ph; simpl; intuition congruence. }
  destruct src; unfold Student.update_best, Teacher.update_best in H;
    (destruct (negb (is_train ph) && bool_decide (best.2 < acc)%Qc);
     [ apply bind_Ok in H as (m & w1 & ev1 & ev1' & Hg & H & ->);
       injection Hg as <- <- <-;
       apply bind_Ok in H as ([] & w2 & ev2 & ev2' & Hs & H & ->);
       apply save_model_spec in Hs as (Hm & Ho & Hsch & -> & Hsave);
       apply ret_Ok in H as (-> & -> & ->);
       destruct Hc as [(-> & Hlt) _]; [done|];
       repeat split; try done; by left
     | apply ret_Ok in H as (-> & -> & ->);
       repeat split; try done; right; repeat split; try done;
       intros Hx; apply Hc in Hx; done ]).
Qed.

Lemma run_epoch_shape src path best w best' w' ev :
  run_epoch_of src loaders dataset_sizes path best w = Ok (best', w', ev) ->
  epoch_shape src loaders dataset_sizes path best w best' w' ev.
Proof.
  intros H.
  assert (exists l1 a1 w1 ev1 best1 w2 ev2 l2 a2 w3 ev3 ev4,
    run_phase_of src loaders dataset_sizes Train w = Ok ((l1, a1), w1, ev1) /\
    match src with
    | TrainPy => Student.update_best
    | TeacherTrainPy => Teacher.update_best
    end Train a1 path best w1 = Ok (best1, w2, ev2) /\
    run_phase_of src loaders dataset_sizes Val w2 = Ok ((l2, a2), w3, ev3) /\
    match src with
    | TrainPy => Student.update_best
    | TeacherTrainPy => Teacher.update_best
    end Val a2 path best1 w3 = Ok (best', w', ev4) /\
    ev = (ev1 ++ ev2) ++ (ev3 ++ ev4))
    as (l1 & a1 & w1 & ev1 & best1 & w2 & ev2 & l2 & a2 & w3 & ev3 & ev4 &
        Ht & Hu1 & Hv & Hu2 & ->).
  { destruct src; unfold run_epoch_of, Student.run_epoch, Teacher.run_epoch,
      Student.phase_iter, Teacher.phase_iter in H;
      apply bind_Ok in H as (best1 & w2 & e12 & e34 & H1 & H2 & ->);
      apply bind_Ok in H1 as ([l1 a1] & w1 & ev1 & ev2 & Ht & Hu1 & ->);
      apply bind_Ok in H2 as ([l2 a2] & w3 & ev3 & ev4 & Hv & Hu2 & ->);
      by exists l1, a1, w1, ev1, best1, w2, ev2, l2, a2, w3, ev3, ev4. }
  apply run_phase_train in Ht as (c & rl & wb & evb & Hb & Hc1 & -> & S1 & D1).
  apply update_best_spec in Hu1 as (_ & _ & _ & [(? & _)|(_ & -> & -> & ->)]); [done|].
  destruct (run_phase_val src w1) as (w3' & evz & Hf & Hz & Hv').
  rewrite Hv' in Hv.
  destruct (val_metrics _ _ _) as [[l2' a2']|e]; [|done].
  injection Hv as -> -> <- <-.
  apply update_best_spec in Hu2 as (Hm & Ho & Hs & Hcase).
  assert (stable w w3') as S3.
  { eapply stable_trans; [exact S1|].
    eapply stable_trans; [apply (with_mode_stable false)|by apply frozen_stable]. }
  assert (stable w w') as S4.
  { destruct S3 as (K & ? & ? & ? & ?). split; [by rewrite Hm|].
    rewrite Hm, Ho, Hs. done. }
  assert (disk w3' = disk w) as D3.
  { destruct Hf as (_ & _ & _ & _ & D & _). by rewrite D. }
  exists c, rl, l1, l2, a2, wb, evb.
  assert (coarse (EvMode false :: evz ++ [EvPrint Val l2 (qc 100 1 * a2)%Qc])
          = [EvMode false; EvPrint Val l2 (qc 100 1 * a2)%Qc]) as Hc2.
  { change (EvMode false :: evz ++ ?r) with ([EvMode false] ++ evz ++ r).
    rewrite !coarse_app, (coarse_batch evz); [done|].
    eapply list.Forall_impl; [exact Hz|]. intros ? ->. by left. }
  destruct Hcase as [(_ & Hlt & -> & -> & Hsave)|(Hn & -> & -> & ->)].
  - exists [EvSave path (state_dict (model w'))].
    split; [done|]. split.
    { rewrite app_nil_r, !coarse_app, Hc1, Hc2, Hm. done. }
    split; [done|]. left. rewrite Hm, <- D3. done.
  - exists []. split; [done|]. split.
    { rewrite !app_nil_r, !coarse_app, Hc1, Hc2. done. }
    split; [done|]. right. repeat split; try done.
    intros Hx. apply Hn. done.
Qed.

End Phases.

(** ** Reading a log through its coarse form *)

Section Logs.
Context {F : Framework}.

Lemma omap_coarse {B} (f : Event -> option B) ev :
  (forall e, is_batch_event e = true -> f e = None) ->
  omap f (coarse ev) = omap f ev.
Proof.
  intros Hf. induction ev as [|e ev IH]; [done|].
  unfold coarse in *. rewrite filter_cons.
  unfold omap in *.
  destruct (decide (is_batch_event e = false)) as [He|He]; simpl.
  - by rewrite IH.
  - rewrite IH, Hf; [done|]. by destruct (is_batch_event e).
Qed.

Lemma sched_metrics_coarse ev : sched_metrics ev = sched_metrics (coarse ev).
Proof. symmetry. apply omap_coarse. by intros []. Qed.

Lemma saves_coarse ev : saves ev = saves (coarse ev).
Proof. symmetry. apply omap_coarse. by intros []. Qed.

Lemma printed_pcts_coarse ph ev : printed_pcts ph ev = printed_pcts ph (coarse ev).
Proof. symmetry. apply omap_coarse. by intros []. Qed.

Lemma epochs_run_coarse ev : epochs_run ev = epochs_run (coarse ev).
Proof. unfold epochs_run. f_equal. symmetry. apply omap_coarse. by intros []. Qed.

Lemma val_accs_coarse ev : val_accs ev = val_accs (coarse ev).
Proof. unfold val_accs. by rewrite printed_pcts_coarse. Qed.

Lemma sched_by_phase_coarse cur ev :
  sched_by_phase cur ev = sched_by_phase cur (coarse ev).
Proof.
  revert cur. induction ev as [|e ev IH]; intros cur; [done|].
  unfold coarse in *. rewrite filter_cons.
  destruct e; simpl; rewrite ?IH; done.
Qed.

Lemma phase_after_coarse cur ev : phase_after cur ev = phase_after cur (coarse ev).
Proof.
  revert cur. induction ev as [|e ev IH]; intros cur; [done|].
  unfold coarse in *. rewrite filter_cons.
  destruct e; simpl; rewrite ?IH; done.
Qed.

Lemma sched_by_phase_app cur ev1 ev2 :
  sched_by_phase cur (ev1 ++ ev2)
  = sched_by_phase cur ev1 ++ sched_by_phase (phase_after cur ev1) ev2.
Proof.
  revert cur. induction ev1 as [|e ev1 IH]; intros cur; [done|].
  destruct e; simpl; rewrite ?IH; done.
Qed.

Lemma sched_metrics_app ev1 ev2 :
  sched_metrics (ev1 ++ ev2) = sched_metrics ev1 ++ sched_metrics ev2.
Proof. apply omap_app. Qed.

Lemma saves_app ev1 ev2 : saves (ev1 ++ ev2) = saves ev1 ++ saves ev2.
Proof. apply omap_app. Qed.

Lemma printed_pcts_app ph ev1 ev2 :
  printed_pcts ph (ev1 ++ ev2) = printed_pcts ph ev1 ++ printed_pcts ph ev2.
Proof. apply omap_app. Qed.

Lemma val_accs_app ev1 ev2 : val_accs (ev1 ++ ev2) = val_accs ev1 ++ val_accs ev2.
Proof. unfold val_accs. by rewrite printed_pcts_app, map_app. Qed.

Lemma epochs_run_app ev1 ev2 : epochs_run (ev1 ++ ev2) = epochs_run ev1 + epochs_run ev2.
Proof. unfold epochs_run. by rewrite omap_app, length_app. Qed.

Lemma percent_back (a : Qc) : (qc 100 1 * a / qc 100 1)%Qc = a.
Proof.
  unfold Qcdiv. rewrite (Qcmult_comm (qc 100 1) a), <- Qcmult_assoc.
  rewrite Qcmult_inv_r; [apply Qcmult_1_r|done].
Qed.

Lemma obj_weights_snapshot src m : obj_weights (snapshot_of src m) = state_dict m.
Proof. by destruct src. Qed.

(** What one epoch contributes to each reading of the log. *)
Lemma epoch_shape_readings src loaders dataset_sizes path best w best' w' ev :
  epoch_shape src loaders dataset_sizes path best w best' w' ev ->
  exists (c : nat) (av : Qc),
    (exists rl w1 evb,
       run_batches Train (loaders Train) 0%Qc None (with_mode true w)
         = Ok ((rl, Some c), w1, evb)) /\
    sched_metrics ev = [percent c (dataset_sizes Train)] /\
    printed_pcts Train ev = [percent c (dataset_sizes Train)] /\
    (forall cur, sched_by_phase cur ev = [(Train, percent c (dataset_sizes Train))]) /\
    (forall cur, phase_after cur ev = Val) /\
    epochs_run ev = 1 /\
    val_accs ev = [av] /\
    ((best.2 < av)%Qc /\ best' = (snapshot_of src (model w'), av) /\
       saves ev = [(path, state_dict (model w'))]
     \/ ~ (best.2 < av)%Qc /\ best' = best /\ saves ev = []).
Proof.
  intros (c & rl & l1 & l2 & av & w1 & evb & sv & Hb & Hc & _ & Hcase).
  exists c, av. split; [by eauto|].
  rewrite sched_metrics_coarse, printed_pcts_coarse, epochs_run_coarse,
    val_accs_coarse, saves_coarse, Hc.
  assert (forall cur, sched_by_phase cur ev = sched_by_phase cur (coarse ev)) as E1
    by (intros; apply sched_by_phase_coarse).
  assert (forall cur, phase_after cur ev = phase_after cur (coarse ev)) as E2
    by (intros; apply phase_after_coarse).
  rewrite Hc in E1, E2.
  destruct Hcase as [(Hlt & -> & -> & _)|(Hn & -> & -> & _)].
  - repeat split; try done.
    + unfold val_accs. simpl. by rewrite percent_back.
    + by left.
  - repeat split; try done.
    + unfold val_accs. simpl. by rewrite percent_back.
    + by right.
Qed.

End Logs.

(** ** A whole runner invocation *)

Section Runs.
Context {F : Framework}.
Variable loaders : Phase -> list Batch.
Variable dataset_sizes : Phase -> nat.

Lemma train_of_ind src path
    (P : nat -> PyObj * Qc -> World -> PyObj * Qc -> World -> list Event -> Prop) :
  (forall best w, P 0 best w best w []) ->
  (forall n best w best1 w1 ev1 best2 w2 ev2,
      run_epoch_of src loaders dataset_sizes path best w = Ok (best1, w1, ev1) ->
      train_of src loaders dataset_sizes n path best1 w1 = Ok (best2, w2, ev2) ->
      P n best1 w1 best2 w2 ev2 ->
      P (S n) best w best2 w2 (ev1 ++ ev2)) ->
  forall n best w best' w' ev,
    train_of src loaders dataset_sizes n path best w = Ok (best', w', ev) ->
    P n best w best' w' ev.
Proof.
  intros H0 HS n. induction n as [|n IH]; intros best w best' w' ev H.
  - assert (ret best w = Ok (best', w', ev)) as Hr by (by destruct src).
    apply ret_Ok in Hr as (-> & -> & ->). apply H0.
  - assert (bind (run_epoch_of src loaders dataset_sizes path best)
                 (fun b => train_of src loaders dataset_sizes n path b) w
            = Ok (best', w', ev)) as Hb by (by destruct src).
    apply bind_Ok in Hb as (best1 & w1 & ev1 & ev2 & He & Ht & ->).
    eapply HS; eauto.
Qed.

Lemma default_last_cons {A} (d x : A) (l : list A) :
  default d (list.last (x :: l)) = default x (list.last l).
Proof.
  destruct l as [|y l]; [done|]. rewrite last_cons_cons.
  destruct (list.last (y :: l)) eqn:E; [done|]. by apply last_None in E.
Qed.

Lemma train_epochs_run src n path best w best' w' ev :
  train_of src loaders dataset_sizes n path best w = Ok (best', w', ev) ->
  epochs_run ev = n.
Proof.
  revert n best w best' w' ev. apply train_of_ind; [done|].
  intros n best w best1 w1 ev1 best2 w2 ev2 He _ IH.
  apply run_epoch_shape, epoch_shape_readings in He
    as (c & av & _ & _ & _ & _ & _ & Hr & _).
  by rewrite epochs_run_app, Hr, IH.
Qed.

(** X4.  Over a whole runner invocation of [n] epochs the scheduler is
    stepped [n] times, always in the train phase, each time with the
    accuracy percentage printed for that train phase. *)
Lemma train_sched src n path best w best' w' ev :
  train_of src loaders dataset_sizes n path best w = Ok (best', w', ev) ->
  length (sched_metrics ev) = n /\
  sched_metrics ev = printed_pcts Train ev /\
  forall cur, sched_by_phase cur ev = map (fun x => (Train, x)) (sched_metrics ev).
Proof.
  revert n best w best' w' ev. apply train_of_ind; [done|].
  intros n best w best1 w1 ev1 best2 w2 ev2 He _ (IH1 & IH2 & IH3).
  apply run_epoch_shape, epoch_shape_readings in He
    as (c & av & _ & Hm & Hp & Hs & Hph & _).
  rewrite sched_metrics_app, printed_pcts_app, Hm, Hp, IH2.
  split; [simpl; rewrite <- IH2; by f_equal|]. split; [done|].
  intros cur. rewrite sched_by_phase_app, Hs, Hph, IH3, IH2. done.
Qed.

Lemma train_stable src n path best w best' w' ev :
  train_of src loaders dataset_sizes n path best w = Ok (best', w', ev) ->
  stable w w'.
Proof.
  revert n best w best' w' ev. apply train_of_ind; [intros; apply stable_refl|].
  intros n best w best1 w1 ev1 best2 w2 ev2 He _ IH.
  apply run_epoch_shape in He
    as (c & rl & l1 & l2 & av & wb & evb & sv & _ & _ & S1 & _).
  by eapply stable_trans.
Qed.

Lemma train_best src n path best w best' w' ev :
  train_of src loaders dataset_sizes n path best w = Ok (best', w', ev) ->
  best'.2 = default best.2 (list.last (improvements best.2 (val_accs ev))) /\
  length (saves ev) = length (improvements best.2 (val_accs ev)) /\
  obj_weights best'.1 = default (obj_weights best.1) (snd <$> list.last (saves ev)) /\
  (saves ev = [] -> best' = best) /\
  Forall (fun s => s.1 = path) (saves ev).
Proof.
  revert n best w best' w' ev. apply train_of_ind.
  { intros. repeat split; try done. }
  intros n best w best1 w1 ev1 best2 w2 ev2 He _ (IH1 & IH2 & IH3 & IH4 & IH5).
  apply run_epoch_shape, epoch_shape_readings in He
    as (c & av & _ & _ & _ & _ & _ & _ & Hv & Hcase).
  rewrite val_accs_app, saves_app, Hv. cbn [app improvements].
  destruct Hcase as [(Hlt & -> & Hs)|(Hn & -> & Hs)]; rewrite Hs.
  - rewrite bool_decide_true by done. cbn [snd fst] in *.
    rewrite default_last_cons. split; [done|]. split; [simpl; by f_equal|].
    cbn [app]. split; [|split; [intros; discriminate|by constructor]].
    rewrite IH3, obj_weights_snapshot.
    destruct (saves ev2) as [|s l]; [done|].
    rewrite last_cons_cons.
    destruct (list.last (s :: l)) eqn:E; [done|]. by apply last_None in E.
  - rewrite bool_decide_false by done. done.
Qed.

Lemma train_monotone src n path best w best' w' ev :
  train_of src loaders dataset_sizes n path best w = Ok (best', w', ev) ->
  (best.2 <= best'.2)%Qc.
Proof.
  revert n best w best' w' ev. apply train_of_ind; [intros; apply Qcle_refl|].
  intros n best w best1 w1 ev1 best2 w2 ev2 He _ IH.
  apply run_epoch_shape, epoch_shape_readings in He
    as (c & av & _ & _ & _ & _ & _ & _ & _ & Hcase).
  destruct Hcase as [(Hlt & -> & _)|(_ & -> & _)]; [|done].
  eapply Qcle_trans; [|exact IH]. by apply Qclt_le_weak.
Qed.

(** The keys of the best checkpoint stay those of the live module. *)
Lemma train_best_keys src n path best w best' w' ev :
  train_of src loaders dataset_sizes n path best w = Ok (best', w', ev) ->
  map fst (obj_weights best.1) = map fst (state_dict (model w)) ->
  map fst (obj_weights best'.1) = map fst (state_dict (model w')).
Proof.
  revert n best w best' w' ev.
  apply (train_of_ind src path (fun _ best w best' w' _ =>
           map fst (obj_weights best.1) = map fst (state_dict (model w)) ->
           map fst (obj_weights best'.1) = map fst (state_dict (model w'))));
    [done|].
  intros n best w best1 w1 ev1 best2 w2 ev2 He _ IH Hk.
  apply IH.
  apply run_epoch_shape in He
    as (c & rl & l1 & l2 & av & wb & evb & sv & _ & _ & S1 & Hcase).
  destruct Hcase as [(_ & -> & _)|(_ & -> & _)].
  - cbn [fst]. by rewrite obj_weights_snapshot.
  - rewrite Hk. destruct S1 as (K & _). apply keeps_keys in K.
    unfold state_dict. rewrite <- !list_fmap_compose.
    exact (eq_sym K).
Qed.

End Runs.

(** Evaluating a run of the small network: the result is computed once,
    as a boolean. *)
Ltac run_by lem := apply lem; vm_compute; reflexivity.

(** ** The epoch loop runner: the claims *)

Section RunnerClaims.
Context {F : Framework}.

(** C3.  In a runner invocation of either file the best-state is
    reassigned, and one checkpoint written, exactly at the validation
    accuracies that strictly exceed the best so far: the returned best
    accuracy is the last such improvement (the incoming one if there is
    none), there are as many writes as improvements, and the returned best
    checkpoint holds the weights of the last write.  For the validation
    accuracies 0.5, 0.7, 0.6, 0.9 from best accuracy 0 the improvements are
    0.5, 0.7, 0.9 and there are exactly 3 writes. *)
Theorem best_state_follows_strict_improvements
    src loaders dataset_sizes epochs path best w best' w' ev :
  train_of src loaders dataset_sizes epochs path best w = Ok (best', w', ev) ->
  best'.2 = default best.2 (list.last (improvements best.2 (val_accs ev))) /\
  length (saves ev) = length (improvements best.2 (val_accs ev)) /\
  obj_weights best'.1 = default (obj_weights best.1) (snd <$> list.last (saves ev)) /\
  (best.2 = 0%Qc ->
   val_accs ev = [qc 1 2; qc 7 10; qc 3 5; qc 9 10] ->
   improvements best.2 (val_accs ev) = [qc 1 2; qc 7 10; qc 9 10] /\
   length (saves ev) = 3 /\ best'.2 = qc 9 10).
Proof.
  intros H. apply train_best in H as (H1 & H2 & H3 & _).
  split; [done|]. split; [done|]. split; [done|].
  intros H0 Hv. rewrite H1, H2, H0, Hv. repeat split; compute_done.
Qed.

End RunnerClaims.

Lemma best_state_follows_strict_improvements_witness :
  train_of TrainPy Toy.loaders Toy.dataset_sizes 4 "best.pth" Toy.best0 Toy.world0
    = Ok (Toy.four_epochs TrainPy) /\
  val_accs (Toy.four_epochs TrainPy).2 = [qc 1 2; qc 7 10; qc 3 5; qc 9 10] /\
  improvements 0%Qc (val_accs (Toy.four_epochs TrainPy).2) = [qc 1 2; qc 7 10; qc 9 10] /\
  length (saves (Toy.four_epochs TrainPy).2) = 3 /\
  (Toy.four_epochs TrainPy).1.1.2 = qc 9 10.
Proof.
  assert (train_of TrainPy Toy.loaders Toy.dataset_sizes 4 "best.pth" Toy.best0 Toy.world0
          = Ok ((Toy.four_epochs TrainPy).1.1, (Toy.four_epochs TrainPy).1.2,
                (Toy.four_epochs TrainPy).2)) as Hrun
    by (unfold Toy.four_epochs, Toy.one_epoch; run_by @get_Ok3).
  assert (val_accs (Toy.four_epochs TrainPy).2 = [qc 1 2; qc 7 10; qc 3 5; qc 9 10]) as Hv
    by (apply (bool_decide_unpack _); vm_compute; exact I).
  destruct (best_state_follows_strict_improvements _ _ _ _ _ _ _ _ _ _ Hrun)
    as (_ & _ & _ & Hscen).
  destruct (Hscen eq_refl Hv) as (Hi & Hs & Hb).
  split; [unfold Toy.four_epochs; run_by @get_Ok|]. split; [exact Hv|].
  split; [exact Hi|]. split; [exact Hs|exact Hb].
Defined.

(** C6.  In one epoch of the runner of either file the scheduler is
    stepped exactly once, in the train phase, and the metric it is given is
    the train-phase accuracy in percent, 100 * running_corrects /
    dataset_sizes['train'], where [running_corrects] is the count the train
    phase's batch loop ends with; no step falls into the validate phase. *)
Theorem scheduler_steps_once_per_epoch_in_train_phase `{F : Framework}
    src loaders dataset_sizes path best w best' w' ev cur :
  run_epoch_of src loaders dataset_sizes path best w = Ok (best', w', ev) ->
  exists c rl w1 evb,
    run_batches Train (loaders Train) 0%Qc None (with_mode true w)
      = Ok ((rl, Some c), w1, evb) /\
    sched_by_phase cur ev = [(Train, percent c (dataset_sizes Train))].
Proof.
  intros H.
  apply run_epoch_shape, epoch_shape_readings in H
    as (c & av & (rl & w1 & evb & Hb) & _ & _ & Hs & _).
  exists c, rl, w1, evb. split; [exact Hb|apply Hs].
Qed.

Lemma scheduler_steps_once_per_epoch_witness :
  run_epoch_of TeacherTrainPy Toy.loaders Toy.dataset_sizes "best.pth" Toy.best0 Toy.world0
    = Ok (Toy.one_epoch TeacherTrainPy) /\
  sched_by_phase Val (Toy.one_epoch TeacherTrainPy).2 = [(Train, percent 0 1)].
Proof.
  assert (run_epoch_of TeacherTrainPy Toy.loaders Toy.dataset_sizes "best.pth"
            Toy.best0 Toy.world0
          = Ok ((Toy.one_epoch TeacherTrainPy).1.1, (Toy.one_epoch TeacherTrainPy).1.2,
                (Toy.one_epoch TeacherTrainPy).2)) as Hrun
    by (unfold Toy.four_epochs, Toy.one_epoch; run_by @get_Ok3).
  destruct (scheduler_steps_once_per_epoch_in_train_phase
              _ _ _ _ _ _ _ _ _ Val Hrun) as (c & rl & w1 & evb & Hb & Hs).
  split; [unfold Toy.one_epoch; run_by @get_Ok|].
  apply (f_equal (fun r => match r with
                           | Ok (_, n, _, _) => n
                           | Raise _ => None
                           end)) in Hb.
  vm_compute in Hb. injection Hb as <-. exact Hs.
Defined.

(** C9.  The validate phase of either file changes no parameter (names,
    values and trainability flags are as before, and so is the whole
    optimizer) and takes no backward pass and no optimizer step; run again
    on the model it leaves, it returns the same epoch loss and the same
    epoch accuracy. *)
Theorem validate_phase_is_read_only_and_repeatable `{F : Framework}
    src loaders dataset_sizes w l a w1 ev1 :
  run_phase_of src loaders dataset_sizes Val w = Ok ((l, a), w1, ev1) ->
  state_dict (model w1) = state_dict (model w) /\
  keeps [] (params (model w)) (params (model w1)) /\
  optimizer w1 = optimizer w /\
  (EvOptStep ∉ ev1) /\ (EvBackward ∉ ev1) /\
  exists w2 ev2,
    run_phase_of src loaders dataset_sizes Val w1 = Ok ((l, a), w2, ev2) /\
    state_dict (model w2) = state_dict (model w1).
Proof.
  intros H.
  destruct (run_phase_val loaders dataset_sizes src w) as (w1' & evz & Hf & Hz & Hv).
  rewrite Hv in H.
  destruct (val_metrics _ _ _) as [[l' a']|e] eqn:Hm; [|done].
  injection H as -> -> <- <-.
  pose proof (frozen_state_dict _ _ Hf) as Hsd.
  change (state_dict (model (with_mode false w))) with (state_dict (model w)) in Hsd.
  destruct Hf as (K & _ & Ho & _).
  split; [done|]. split; [done|]. split; [done|].
  assert (forall e, e ∈ EvMode false :: evz ++ [EvPrint Val l (qc 100 1 * a)%Qc] ->
            e <> EvOptStep /\ e <> EvBackward) as Hev.
  { intros e He. apply elem_of_cons in He as [->|He]; [done|].
    apply elem_of_app in He as [He|He].
    - rewrite list.Forall_forall in Hz. by rewrite (Hz e He).
    - apply list_elem_of_singleton in He as ->. done. }
  split; [intros He; by apply Hev in He as [? _]|].
  split; [intros He; by apply Hev in He as [_ ?]|].
  destruct (run_phase_val loaders dataset_sizes src w1') as (w2 & evz2 & Hf2 & _ & Hv2).
  rewrite Hsd, Hm in Hv2.
  eexists _, _. split; [exact Hv2|].
  apply (frozen_state_dict _ _ Hf2).
Qed.

Lemma validate_phase_is_read_only_and_repeatable_witness :
  run_phase_of TrainPy Toy.loaders Toy.dataset_sizes Val Toy.world0
    = Ok (Toy.one_val_phase TrainPy) /\
  state_dict (model (Toy.one_val_phase TrainPy).1.2) = state_dict (model Toy.world0) /\
  exists w2 ev2,
    run_phase_of TrainPy Toy.loaders Toy.dataset_sizes Val (Toy.one_val_phase TrainPy).1.2
      = Ok ((Toy.one_val_phase TrainPy).1.1, w2, ev2).
Proof.
  assert (run_phase_of TrainPy Toy.loaders Toy.dataset_sizes Val Toy.world0
          = Ok (((Toy.one_val_phase TrainPy).1.1.1, (Toy.one_val_phase TrainPy).1.1.2),
                (Toy.one_val_phase TrainPy).1.2, (Toy.one_val_phase TrainPy).2)) as Hrun
    by (unfold Toy.one_val_phase; run_by @get_Ok4).
  destruct (validate_phase_is_read_only_and_repeatable _ _ _ _ _ _ _ _ Hrun)
    as (Hsd & _ & _ & _ & _ & w2 & ev2 & Hagain & _).
  split; [unfold Toy.one_val_phase; run_by @get_Ok|]. split; [exact Hsd|].
  exists w2, ev2. exact Hagain.
Defined.

(** ** The staged controllers *)

Section Controllers.
Context {F : Framework}.
Variable loaders : Phase -> list Batch.
Variable dataset_sizes : Phase -> nat.

(** What kind of value each runner keeps as best checkpoint. *)
Lemma student_best_is_state_dict n path best w best' w' ev :
  train_of TrainPy loaders dataset_sizes n path best w = Ok (best', w', ev) ->
  (exists sd, best.1 = ObjStateDict sd) -> exists sd, best'.1 = ObjStateDict sd.
Proof.
  revert n best w best' w' ev.
  apply (train_of_ind loaders dataset_sizes TrainPy path (fun _ best _ best' _ _ =>
           (exists sd, best.1 = ObjStateDict sd) -> exists sd, best'.1 = ObjStateDict sd));
    [done|].
  intros n best w best1 w1 ev1 best2 w2 ev2 He _ IH Hsd. apply IH.
  apply run_epoch_shape in He
    as (c & rl & l1 & l2 & av & wb & evb & sv & _ & _ & _ & Hcase).
  destruct Hcase as [(_ & -> & _)|(_ & -> & _)]; [by eexists|done].
Qed.

Lemma teacher_best_is_module n path best w best' w' ev :
  train_of TeacherTrainPy loaders dataset_sizes n path best w = Ok (best', w', ev) ->
  (exists m, best.1 = ObjModule m) -> exists m, best'.1 = ObjModule m.
Proof.
  revert n best w best' w' ev.
  apply (train_of_ind loaders dataset_sizes TeacherTrainPy path (fun _ best _ best' _ _ =>
           (exists m, best.1 = ObjModule m) -> exists m, best'.1 = ObjModule m));
    [done|].
  intros n best w best1 w1 ev1 best2 w2 ev2 He _ IH Hsd. apply IH.
  apply run_epoch_shape in He
    as (c & rl & l1 & l2 & av & wb & evb & sv & _ & _ & _ & Hcase).
  destruct Hcase as [(_ & -> & _)|(_ & -> & _)]; [by eexists|done].
Qed.

(** Stage 1 of [train_kd], taken apart. *)
Lemma student_stage1_inv epochs student teacher path_save_weight fs r1 :
  Student.stage1 loaders dataset_sizes epochs student teacher path_save_weight fs = Ok r1 ->
  exists fs1 scope opt,
    Student.resolve_path path_save_weight student fs = Ok (r_path r1, fs1) /\
    Student.head_parameters student = Ok scope /\
    Adam scope Student.optimizer1 = Ok opt /\
    train_of TrainPy loaders dataset_sizes epochs (r_path r1)
      (ObjStateDict (state_dict student), 0%Qc)
      (mkWorld student opt (ReduceLROnPlateau Student.scheduler1) fs1)
      = Ok ((r_best r1, r_best_acc r1), r_world r1, r_log r1).
Proof.
  unfold Student.stage1. intros H.
  apply rbind_Ok in H as ([path fs1] & Hp & H).
  apply rbind_Ok in H as (scope & Hh & H).
  apply rbind_Ok in H as (opt & Ho & H).
  apply rbind_Ok in H as ([[[b a] w] ev] & Ht & H).
  injection H as <-. by exists fs1, scope, opt.
Qed.

(** Stage 1 of [training], taken apart. *)
Lemma teacher_stage1_inv cuda epochs_freeze teacher path_save_weight fs r1 :
  Teacher.stage1 cuda loaders dataset_sizes epochs_freeze teacher path_save_weight fs
    = Ok r1 ->
  exists fs1 scope opt,
    Teacher.resolve_path path_save_weight teacher fs = Ok (r_path r1, fs1) /\
    cuda = true /\
    Teacher.last_child_parameters teacher = Ok scope /\
    Adam scope Teacher.optimizer1 = Ok opt /\
    train_of TeacherTrainPy loaders dataset_sizes epochs_freeze (r_path r1)
      (ObjModule teacher, 0%Qc)
      (mkWorld teacher opt (ReduceLROnPlateau Teacher.scheduler1) fs1)
      = Ok ((r_best r1, r_best_acc r1), r_world r1, r_log r1).
Proof.
  unfold Teacher.stage1. intros H.
  apply rbind_Ok in H as ([path fs1] & Hp & H).
  apply rbind_Ok in H as ([] & Hc & H).
  apply rbind_Ok in H as (scope & Hh & H).
  apply rbind_Ok in H as (opt & Ho & H).
  apply rbind_Ok in H as ([[[b a] w] ev] & Ht & H).
  injection H as <-. exists fs1, scope, opt.
  repeat split; try done. by destruct cuda.
Qed.

(** Stage 2 and the unfreezing step of either file, taken apart. *)
Lemma stage2_of_inv src epochs r2 r3 :
  stage2_of src loaders dataset_sizes epochs r2 = Ok r3 ->
  exists ev,
    train_of src loaders dataset_sizes epochs (r_path r2) (r_best r2, r_best_acc r2)
      (r_world r2) = Ok ((r_best r3, r_best_acc r3), r_world r3, ev) /\
    r_path r3 = r_path r2 /\ r_log r3 = r_log r2 ++ ev.
Proof.
  intros H.
  destruct src; unfold stage2_of, Student.stage2, Teacher.stage2 in H;
    apply rbind_Ok in H as ([[[b a] w] ev] & Ht & H);
    injection H as <-; by exists ev.
Qed.

Lemma unfreeze_of_inv src r1 r2 :
  unfreeze_of src r1 = Ok r2 ->
  exists m opt,
    load_state_dict (model (r_world r1)) (r_best r1) = Ok m /\
    Adam (all_params (set_params m (map (fun p => set_requires_grad p true) (params m))))
         (match src with
          | TrainPy => Student.optimizer2
          | TeacherTrainPy => Teacher.optimizer2
          end) = Ok opt /\
    r_world r2 =
      mkWorld (set_params m (map (fun p => set_requires_grad p true) (params m))) opt
        (ReduceLROnPlateau (match src with
                            | TrainPy => Student.scheduler2
                            | TeacherTrainPy => Teacher.scheduler2
                            end))
        (disk (r_world r1)) /\
    r_path r2 = r_path r1 /\ r_best r2 = r_best r1 /\
    r_best_acc r2 = r_best_acc r1 /\ r_log r2 = r_log r1.
Proof.
  intros H.
  destruct src; unfold unfreeze_of, Student.unfreeze, Teacher.unfreeze in H;
    apply rbind_Ok in H as (m & Hl & H);
    apply rbind_Ok in H as (opt & Ho & H);
    injection H as <-; exists m, opt; repeat split; done.
Qed.

(** [train_kd] never returns: when both runner invocations complete, the
    value kept as best is a state dict, on which line 122 calls
    [.state_dict()]. *)
Lemma student_finish_raises epochs student teacher path_save_weight fs r1 r2 r3 :
  Student.stage1 loaders dataset_sizes epochs student teacher path_save_weight fs = Ok r1 ->
  Student.unfreeze r1 = Ok r2 ->
  Student.stage2 loaders dataset_sizes epochs r2 = Ok r3 ->
  Student.finish r3 = Raise (AttributeError "state_dict").
Proof.
  intros H1 H2 H3.
  apply student_stage1_inv in H1 as (fs1 & scope & opt & _ & _ & _ & Ht1).
  apply student_best_is_state_dict in Ht1 as [sd1 Hsd1]; [|by eexists].
  apply (unfreeze_of_inv TrainPy) in H2 as (m & opt2 & _ & _ & _ & _ & Hb & _).
  apply (stage2_of_inv TrainPy) in H3 as (ev & Ht2 & _).
  apply student_best_is_state_dict in Ht2 as [sd2 Hsd2].
  - simpl in Hsd2. unfold Student.finish. by rewrite Hsd2.
  - simpl in *. rewrite Hb, Hsd1. by eexists.
Qed.

(** X1.  No call of [train_kd] returns: whatever the arguments, it ends
    in an exception (at the latest on line 122). *)
Lemma student_train_kd_always_raises epochs student teacher path_save_weight fs :
  exists e,
    Student.train_kd loaders dataset_sizes epochs student teacher path_save_weight fs
      = Raise e.
Proof.
  unfold Student.train_kd, Student.stages.
  destruct (Student.stage1 _ _ _ _ _ _ _) as [r1|e] eqn:H1; simpl; [|by eexists].
  destruct (Student.unfreeze r1) as [r2|e] eqn:H2; simpl; [|by eexists].
  destruct (Student.stage2 _ _ _ r2) as [r3|e] eqn:H3; simpl; [|by eexists].
  erewrite student_finish_raises; by eauto.
Qed.

(** [training] never gets past line 107: the value kept as best is a
    module, which [load_state_dict] refuses. *)
Lemma teacher_unfreeze_raises cuda epochs_freeze teacher path_save_weight fs r1 :
  Teacher.stage1 cuda loaders dataset_sizes epochs_freeze teacher path_save_weight fs
    = Ok r1 ->
  Teacher.unfreeze r1 = Raise (TypeError "Expected state_dict to be dict-like").
Proof.
  intros H1.
  apply teacher_stage1_inv in H1 as (fs1 & scope & opt & _ & _ & _ & _ & Ht1).
  apply teacher_best_is_module in Ht1 as [m Hm]; [|by eexists].
  simpl in Hm. unfold Teacher.unfreeze, load_state_dict. by rewrite Hm.
Qed.

(** X2.  No call of [training] returns: whatever the arguments, it ends
    in an exception (at the latest on line 107). *)
Lemma teacher_training_always_raises cuda epochs_freeze epochs_unfreeze teacher
    path_save_weight fs :
  exists e,
    Teacher.training cuda loaders dataset_sizes epochs_freeze epochs_unfreeze teacher
      path_save_weight fs = Raise e.
Proof.
  unfold Teacher.training, Teacher.stages.
  destruct (Teacher.stage1 _ _ _ _ _ _ _) as [r1|e] eqn:H1; simpl; [|by eexists].
  erewrite teacher_unfreeze_raises; by eauto.
Qed.

(** Which parameters a child owns. *)
Lemma elem_of_owned_by c (m : Module) i :
  i ∈ owned_by c m <-> exists p, params m !! i = Some p /\ p_owner p = c.
Proof.
  unfold owned_by. rewrite list_elem_of_omap. split.
  - intros ([j p] & Hin & Hf).
    apply elem_of_lookup_imap in Hin as (k & q & [= -> ->] & Hq).
    destruct (decide (p_owner q = c)); [|done]. injection Hf as <-. eauto.
  - intros (p & Hp & Ho). exists (i, p). split.
    + apply elem_of_lookup_imap. eauto.
    + by rewrite decide_True.
Qed.

Lemma Adam_Ok scope h opt :
  Adam scope h = Ok opt -> opt_scope opt = scope /\ opt_hyper opt = h /\ scope <> [].
Proof. destruct scope; [done|]. by intros [= <-]. Qed.

Lemma stage1_of_student cuda epochs net teacher path_save_weight fs :
  stage1_of TrainPy cuda loaders dataset_sizes epochs net teacher path_save_weight fs
  = Student.stage1 loaders dataset_sizes epochs net teacher path_save_weight fs.
Proof. reflexivity. Qed.

Lemma stage1_of_teacher cuda epochs net teacher path_save_weight fs :
  stage1_of TeacherTrainPy cuda loaders dataset_sizes epochs net teacher path_save_weight fs
  = Teacher.stage1 cuda loaders dataset_sizes epochs net path_save_weight fs.
Proof. reflexivity. Qed.

(** Stage 1 of either controller, taken apart. *)
Lemma stage1_of_inv src cuda epochs net teacher path_save_weight fs r1 :
  stage1_of src cuda loaders dataset_sizes epochs net teacher path_save_weight fs = Ok r1 ->
  exists head opt fs1,
    head_name src net = Some head /\
    Adam (owned_by head net)
         (match src with
          | TrainPy => Student.optimizer1
          | TeacherTrainPy => Teacher.optimizer1
          end) = Ok opt /\
    train_of src loaders dataset_sizes epochs (r_path r1)
      (snapshot_of src net, 0%Qc)
      (mkWorld net opt
         (ReduceLROnPlateau (match src with
                             | TrainPy => Student.scheduler1
                             | TeacherTrainPy => Teacher.scheduler1
                             end)) fs1)
      = Ok ((r_best r1, r_best_acc r1), r_world r1, r_log r1).
Proof.
  destruct src; simpl; intros H.
  - apply student_stage1_inv in H as (fs1 & scope & opt & _ & Hh & Ho & Ht).
    unfold Student.head_parameters in Hh. case_bool_decide; [|done].
    injection Hh as <-. by exists "head", opt, fs1.
  - apply teacher_stage1_inv in H as (fs1 & scope & opt & _ & _ & Hh & Ho & Ht).
    unfold Teacher.last_child_parameters in Hh.
    destruct (list.last (children net)) as [c|] eqn:Hc; [|done].
    injection Hh as <-. by exists c, opt, fs1.
Qed.

(** Loading a state dict with the module's own keys installs its values. *)
Lemma fill_values_spec (ps : list Param) (sd : StateDict) :
  map fst sd = map param_key ps ->
  map (fun p => (param_key p, p_value p)) (fill_values ps sd) = sd /\
  length (fill_values ps sd) = length ps.
Proof.
  revert sd. induction ps as [|p ps IH]; intros [|[k v] sd] Hk; try done.
  injection Hk as Hk1 Hk2. destruct (IH sd Hk2) as [E L].
  simpl. rewrite E, L. unfold param_key in *. simpl. by rewrite Hk1.
Qed.

Lemma state_dict_keys (m : Module) : map fst (state_dict m) = map param_key (params m).
Proof. unfold state_dict. by rewrite <- list_fmap_compose. Qed.

Lemma load_state_dict_Ok (m : Module) (sd : StateDict) :
  map fst sd = map fst (state_dict m) ->
  exists m', load_state_dict m (ObjStateDict sd) = Ok m' /\ state_dict m' = sd /\
    length (params m') = length (params m).
Proof.
  intros Hk. unfold load_state_dict. rewrite decide_True by done.
  rewrite state_dict_keys in Hk. destruct (fill_values_spec _ _ Hk) as [E L].
  eexists. split; [done|]. by split.
Qed.

(** X3.  The reload of [train_kd]: after a completed stage 1 it succeeds,
    and the live student then carries the weights of stage 1's best
    checkpoint (not those of its last epoch), every parameter trainable. *)
Lemma student_reload_restores_best epochs student teacher path_save_weight fs r1 :
  Student.stage1 loaders dataset_sizes epochs student teacher path_save_weight fs = Ok r1 ->
  exists r2,
    Student.unfreeze r1 = Ok r2 /\
    state_dict (model (r_world r2)) = obj_weights (r_best r1) /\
    Forall (fun p => p_requires_grad p = true) (params (model (r_world r2))) /\
    r_best r2 = r_best r1 /\ r_best_acc r2 = r_best_acc r1.
Proof.
  intros H.
  apply (stage1_of_inv TrainPy true) in H as (head & opt & fs1 & Hh & Ho & Ht).
  pose proof (student_best_is_state_dict _ _ _ _ _ _ _ Ht) as [sd Hsd]; [by eexists|].
  pose proof (train_best_keys _ _ _ _ _ _ _ _ _ _ Ht eq_refl) as Hk.
  pose proof (train_stable _ _ _ _ _ _ _ _ _ _ Ht) as ([Hl _] & _).
  simpl in Hsd, Hk, Hl. rewrite Hsd in Hk. simpl in Hk.
  destruct (load_state_dict_Ok _ _ Hk) as (m' & Hload & Hm' & Hlen).
  apply Adam_Ok in Ho as (_ & _ & Hne).
  assert (params student <> []) as Hps.
  { intros E. apply Hne. unfold owned_by. by rewrite E. }
  unfold Student.unfreeze. rewrite Hsd, Hload. simpl.
  unfold all_params. simpl. rewrite length_map, Hlen, Hl.
  destruct (params student) as [|p0 ps0] eqn:Eps; [done|]. simpl.
  eexists. split; [done|]. simpl. split; [|split; [|done]].
  - rewrite <- Hm'. unfold state_dict. simpl.
    rewrite <- list_fmap_compose. done.
  - apply Forall_fmap. by apply Forall_true.
Qed.

(** Each stage runs its runner for the epoch count it is given. *)
Lemma stage1_epochs_run src cuda epochs net teacher path_save_weight fs r1 :
  stage1_of src cuda loaders dataset_sizes epochs net teacher path_save_weight fs = Ok r1 ->
  epochs_run (r_log r1) = epochs.
Proof.
  intros H. apply stage1_of_inv in H as (head & opt & fs1 & _ & _ & Ht).
  by apply train_epochs_run in Ht.
Qed.

Lemma stage2_epochs_run src epochs r2 r3 :
  stage2_of src loaders dataset_sizes epochs r2 = Ok r3 ->
  epochs_run (r_log r3) = epochs_run (r_log r2) + epochs.
Proof.
  intros H. apply stage2_of_inv in H as (ev & Ht & _ & ->).
  apply train_epochs_run in Ht. by rewrite epochs_run_app, Ht.
Qed.

Lemma student_stages_inv epochs student teacher path_save_weight fs r3 :
  Student.stages loaders dataset_sizes epochs student teacher path_save_weight fs = Ok r3 ->
  exists r1 r2,
    Student.stage1 loaders dataset_sizes epochs student teacher path_save_weight fs = Ok r1 /\
    Student.unfreeze r1 = Ok r2 /\
    Student.stage2 loaders dataset_sizes epochs r2 = Ok r3.
Proof.
  unfold Student.stages. intros H.
  apply rbind_Ok in H as (r1 & H1 & H). apply rbind_Ok in H as (r2 & H2 & H3).
  by exists r1, r2.
Qed.

Lemma student_stages_epochs_run epochs student teacher path_save_weight fs r1 r3 :
  Student.stage1 loaders dataset_sizes epochs student teacher path_save_weight fs = Ok r1 ->
  Student.stages loaders dataset_sizes epochs student teacher path_save_weight fs = Ok r3 ->
  runs_stage_epochs r1 r3 epochs epochs.
Proof.
  intros H1 H. apply student_stages_inv in H as (r1' & r2 & H1' & H2 & H3).
  rewrite H1 in H1'. injection H1' as <-.
  apply (unfreeze_of_inv TrainPy) in H2 as (_ & _ & _ & _ & _ & _ & _ & _ & Hlog).
  apply (stage2_epochs_run TrainPy) in H3.
  apply (stage1_epochs_run TrainPy true) in H1.
  split; [done|]. by rewrite H3, Hlog, H1.
Qed.

(** The scheduler a stage runs with is the one its controller built. *)
Lemma stage1_scheduler src cuda epochs net teacher path_save_weight fs r1 :
  stage1_of src cuda loaders dataset_sizes epochs net teacher path_save_weight fs = Ok r1 ->
  sch_cfg (scheduler (r_world r1)) =
    match src with
    | TrainPy => Student.scheduler1
    | TeacherTrainPy => Teacher.scheduler1
    end.
Proof.
  intros H. apply stage1_of_inv in H as (head & opt & fs1 & _ & _ & Ht).
  apply train_stable in Ht as (_ & _ & _ & _ & Hc). by rewrite Hc.
Qed.

Lemma stage2_scheduler src epochs r1 r2 r3 :
  unfreeze_of src r1 = Ok r2 ->
  stage2_of src loaders dataset_sizes epochs r2 = Ok r3 ->
  sch_cfg (scheduler (r_world r2)) =
    match src with
    | TrainPy => Student.scheduler2
    | TeacherTrainPy => Teacher.scheduler2
    end /\
  sch_cfg (scheduler (r_world r3)) = sch_cfg (scheduler (r_world r2)).
Proof.
  intros H2 H3.
  apply unfreeze_of_inv in H2 as (m & opt & _ & _ & Hw & _).
  apply stage2_of_inv in H3 as (ev & Ht & _).
  apply train_stable in Ht as (_ & _ & _ & _ & Hc).
  rewrite Hc, Hw. by destruct src.
Qed.

End Controllers.

(** ** The staged controllers: the claims *)

(** C1.  [train_kd] run on the small network with one epoch per stage:
    both runner invocations complete, and the final step raises instead of
    writing the best checkpoint and returning: [best_student] is the state
    dict stored by the runner, and line 122 calls [.state_dict()] on it. *)
Theorem train_kd_final_save_raises :
  Student.stages Toy.loaders Toy.dataset_sizes 1 Toy.net Toy.net (Some "best.pth") Toy.fs0
    = Ok Toy.student_stages /\
  epochs_run (r_log Toy.student_stages) = 2 /\
  is_ok (obj_state_dict (r_best Toy.student_stages)) = false /\
  Student.finish Toy.student_stages = Raise (AttributeError "state_dict") /\
  Student.train_kd Toy.loaders Toy.dataset_sizes 1 Toy.net Toy.net (Some "best.pth") Toy.fs0
    = Raise (AttributeError "state_dict").
Proof.
  split; [unfold Toy.student_stages; run_by @get_Ok|].
  split; [vm_compute; reflexivity|].
  split; [vm_compute; reflexivity|].
  split; run_by @raises_Raise.
Qed.

(** C2.  [training] run on the small network: stage 1 completes, and the
    reload on line 107 raises, because [best_teacher] is a deep copy of the
    module and not a state dict; stage 2 never begins. *)
Theorem training_reload_raises :
  Teacher.stage1 true Toy.loaders Toy.dataset_sizes 1 Toy.net (Some "best.pth") Toy.fs0
    = Ok Toy.teacher_stage1 /\
  Teacher.unfreeze Toy.teacher_stage1
    = Raise (TypeError "Expected state_dict to be dict-like") /\
  Teacher.training true Toy.loaders Toy.dataset_sizes 1 1 Toy.net (Some "best.pth") Toy.fs0
    = Raise (TypeError "Expected state_dict to be dict-like").
Proof.
  split; [unfold Toy.teacher_stage1; run_by @get_Ok|].
  split; run_by @raises_Raise.
Qed.

(** C10.  [train_kd] called without a path: when the directory [Weights]
    exists, [os.makedirs] is called on it and the call raises; when it does
    not exist, nothing is created and the save path lies in the missing
    directory. *)
Theorem train_kd_default_path_check_is_inverted `{F : Framework}
    loaders dataset_sizes epochs student teacher fs :
  if isdir fs "Weights"
  then Student.resolve_path None student fs = Raise (FileExistsError "Weights") /\
       Student.train_kd loaders dataset_sizes epochs student teacher None fs
         = Raise (FileExistsError "Weights")
  else Student.resolve_path None student fs
         = Ok (path_join "Weights" (class_name student +:+ ".pth"), fs) /\
       "Weights" ∉ dirs fs.
Proof.
  unfold Student.train_kd, Student.stages, Student.stage1, Student.resolve_path, isdir.
  destruct (bool_decide ("Weights" ∈ dirs fs)) eqn:E.
  - unfold makedirs. rewrite E. done.
  - split; [done|]. by apply bool_decide_eq_false in E.
Qed.

(** Both cases on the small network: with [Weights] present the call
    stops at [os.makedirs]; without it, at the first checkpoint write. *)
Example train_kd_default_path_on_small_network :
  Student.train_kd Toy.loaders Toy.dataset_sizes 1 Toy.net Toy.net None Toy.fs_weights
    = Raise (FileExistsError "Weights") /\
  Student.train_kd Toy.loaders Toy.dataset_sizes 1 Toy.net Toy.net None Toy.fs0
    = Raise (FileNotFoundError "Weights/Net.pth").
Proof. split; run_by @raises_Raise. Qed.

(** C4.  The best accuracy never decreases across a two-stage run: a
    runner invocation of either file returns a best accuracy at least as
    large as the one passed in; the unfreezing step hands stage 1's
    best-state on unchanged and stage 2's runner is called with exactly it;
    so a completed stage 2 ends with a best accuracy no smaller than stage
    1's, which itself is no smaller than the initial 0. *)
Theorem best_accuracy_never_decreases `{F : Framework} :
  (forall src loaders dataset_sizes epochs path best w best' w' ev,
     train_of src loaders dataset_sizes epochs path best w = Ok (best', w', ev) ->
     (best.2 <= best'.2)%Qc) /\
  (forall src cuda loaders dataset_sizes epochs net teacher path fs r1,
     stage1_of src cuda loaders dataset_sizes epochs net teacher path fs = Ok r1 ->
     (0 <= r_best_acc r1)%Qc) /\
  (forall src loaders dataset_sizes epochs r1 r2 r3,
     unfreeze_of src r1 = Ok r2 ->
     stage2_of src loaders dataset_sizes epochs r2 = Ok r3 ->
     (exists ev,
        train_of src loaders dataset_sizes epochs (r_path r1)
          (r_best r1, r_best_acc r1) (r_world r2)
        = Ok ((r_best r3, r_best_acc r3), r_world r3, ev)) /\
     (r_best_acc r1 <= r_best_acc r3)%Qc).
Proof.
  split; [|split].
  - intros * H. by apply train_monotone in H.
  - intros * H. apply stage1_of_inv in H as (head & opt & fs1 & _ & _ & Ht).
    by apply train_monotone in Ht.
  - intros * H2 H3.
    apply unfreeze_of_inv in H2 as (m & opt & _ & _ & _ & Hp & Hb & Ha & _).
    apply stage2_of_inv in H3 as (ev & Ht & _).
    rewrite Hp, Hb, Ha in Ht. split; [by exists ev|].
    by apply train_monotone in Ht.
Qed.

Lemma best_accuracy_never_decreases_witness :
  Student.stage1 Toy.loaders Toy.dataset_sizes 1 Toy.net Toy.net (Some "best.pth") Toy.fs0
    = Ok Toy.student_stage1 /\
  Student.unfreeze Toy.student_stage1 = Ok Toy.student_unfrozen /\
  Student.stage2 Toy.loaders Toy.dataset_sizes 1 Toy.student_unfrozen
    = Ok Toy.student_stage2 /\
  (0 <= r_best_acc Toy.student_stage1)%Qc /\
  (r_best_acc Toy.student_stage1 <= r_best_acc Toy.student_stage2)%Qc.
Proof.
  assert (Student.stage1 Toy.loaders Toy.dataset_sizes 1 Toy.net Toy.net
            (Some "best.pth") Toy.fs0 = Ok Toy.student_stage1) as H1
    by (unfold Toy.student_stage1; run_by @get_Ok).
  assert (Student.unfreeze Toy.student_stage1 = Ok Toy.student_unfrozen) as H2
    by (unfold Toy.student_unfrozen; run_by @get_Ok).
  assert (Student.stage2 Toy.loaders Toy.dataset_sizes 1 Toy.student_unfrozen
          = Ok Toy.student_stage2) as H3
    by (unfold Toy.student_stage2; run_by @get_Ok).
  destruct (@best_accuracy_never_decreases Toy.framework) as (_ & Hs1 & Hs2).
  pose proof H1 as H1'. rewrite <- (stage1_of_student _ _ true) in H1'.
  pose proof (Hs1 TrainPy true _ _ _ _ _ _ _ _ H1') as Ha.
  destruct (Hs2 TrainPy _ _ _ _ _ _ H2 H3) as [_ Hb].
  split; [exact H1|]. split; [exact H2|]. split; [exact H3|].
  split; [exact Ha|exact Hb].
Defined.

(** C5, as stated, fails: [train_kd] run on a network whose parameters all
    require a gradient (as [nn.Module] builds them) leaves the backbone
    parameter marked trainable.  Neither controller writes a
    trainability flag before stage 2. *)
Lemma stage1_leaves_backbone_trainable :
  Student.stage1 Toy.loaders Toy.dataset_sizes 1 Toy.net Toy.net (Some "best.pth") Toy.fs0
    = Ok Toy.student_stage1 /\
  ~ only_head_trainable "head" (model (r_world Toy.student_stage1)).
Proof.
  split; [unfold Toy.student_stage1; run_by @get_Ok|].
  intros H.
  assert (params (model (r_world Toy.student_stage1)) !! 0
          = Some (@mkParam Toy.framework "backbone" "weight" 3 true (Some tt))) as Hp
    by (vm_compute; reflexivity).
  apply list_elem_of_lookup_2 in Hp. destruct (H _ Hp) as [Hh _].
  specialize (Hh eq_refl). discriminate Hh.
Qed.

(** C5, as amended.  During stage 1 of either controller the optimizer
    owns the parameters of the head and nothing else; no trainability flag
    is changed (each parameter keeps the flag the caller gave it); and the
    value of every parameter outside the head is, at the end of stage 1,
    the one the caller passed in. *)
Theorem stage1_updates_head_parameters_only `{F : Framework}
    src cuda loaders dataset_sizes epochs net teacher path fs r1 :
  stage1_of src cuda loaders dataset_sizes epochs net teacher path fs = Ok r1 ->
  exists head,
    head_name src net = Some head /\
    opt_scope (optimizer (r_world r1)) = owned_by head net /\
    length (params (model (r_world r1))) = length (params net) /\
    forall i p q,
      params net !! i = Some p -> params (model (r_world r1)) !! i = Some q ->
      p_owner q = p_owner p /\
      p_requires_grad q = p_requires_grad p /\
      (p_owner p <> head -> p_value q = p_value p).
Proof.
  intros H.
  apply stage1_of_inv in H as (head & opt & fs1 & Hh & Ho & Ht).
  apply Adam_Ok in Ho as (Hs & _ & _).
  apply train_stable in Ht as (K & Hsc & _). simpl in K, Hsc.
  rewrite Hs in K, Hsc. destruct K as [Hl K].
  exists head. split; [done|]. split; [done|]. split; [done|].
  intros i p q Hp Hq. destruct (K i p q Hp Hq) as (Hown & _ & Hrg & Hv).
  split; [done|]. split; [done|]. intros Hne. apply Hv.
  rewrite elem_of_owned_by. intros (p' & Hp' & Ho'). by simplify_eq.
Qed.

Lemma stage1_updates_head_parameters_only_witness :
  Teacher.stage1 true Toy.loaders Toy.dataset_sizes 1 Toy.net (Some "best.pth") Toy.fs0
    = Ok Toy.teacher_stage1 /\
  head_only_updates TeacherTrainPy Toy.net Toy.teacher_stage1.
Proof.
  assert (Teacher.stage1 true Toy.loaders Toy.dataset_sizes 1 Toy.net (Some "best.pth")
            Toy.fs0 = Ok Toy.teacher_stage1) as H1
    by (unfold Toy.teacher_stage1; run_by @get_Ok).
  split; [exact H1|].
  rewrite <- (stage1_of_teacher _ _ true 1 Toy.net Toy.net) in H1.
  exact (stage1_updates_head_parameters_only _ _ _ _ _ _ _ _ _ _ H1).
Defined.

(** C7, as stated, fails: the scheduler [train_kd] builds for stage 1
    multiplies the learning rate by 0.1, not by 0.5. *)
Lemma train_kd_scheduler_divides_by_ten :
  Student.stage1 Toy.loaders Toy.dataset_sizes 1 Toy.net Toy.net (Some "best.pth") Toy.fs0
    = Ok Toy.student_stage1 /\
  ~ halving_max_plateau (sch_cfg (scheduler (r_world Toy.student_stage1))).
Proof.
  split; [unfold Toy.student_stage1; run_by @get_Ok|].
  intros (_ & Hf & _). apply (f_equal this) in Hf. vm_compute in Hf. discriminate Hf.
Qed.

(** C7, as amended.  In stage 1 both controllers build the plateau
    scheduler to maximize the monitored accuracy, with patience 3; the
    scheduler of stage 2 is built with patience 2; on stagnation the
    learning rate is multiplied by 0.5 in [training] and by 0.1 in
    [train_kd], in both stages. *)
Theorem plateau_schedulers_as_constructed `{F : Framework} :
  (forall src cuda loaders dataset_sizes epochs net teacher path fs r1,
     stage1_of src cuda loaders dataset_sizes epochs net teacher path fs = Ok r1 ->
     mode (sch_cfg (scheduler (r_world r1))) = ModeMax /\
     patience (sch_cfg (scheduler (r_world r1))) = 3 /\
     factor (sch_cfg (scheduler (r_world r1))) =
       match src with TrainPy => qc 1 10 | TeacherTrainPy => qc 1 2 end) /\
  (forall src loaders dataset_sizes epochs r1 r2 r3,
     unfreeze_of src r1 = Ok r2 ->
     stage2_of src loaders dataset_sizes epochs r2 = Ok r3 ->
     patience (sch_cfg (scheduler (r_world r3))) = 2 /\
     factor (sch_cfg (scheduler (r_world r3))) =
       match src with TrainPy => qc 1 10 | TeacherTrainPy => qc 1 2 end).
Proof.
  split.
  - intros * H. apply stage1_scheduler in H. rewrite H. by destruct src.
  - intros * H2 H3. destruct (stage2_scheduler _ _ _ _ _ _ _ H2 H3) as [E2 E3].
    rewrite E3, E2. by destruct src.
Qed.

Lemma plateau_schedulers_as_constructed_witness :
  Student.stage1 Toy.loaders Toy.dataset_sizes 1 Toy.net Toy.net (Some "best.pth") Toy.fs0
    = Ok Toy.student_stage1 /\
  Student.unfreeze Toy.student_stage1 = Ok Toy.student_unfrozen /\
  Student.stage2 Toy.loaders Toy.dataset_sizes 1 Toy.student_unfrozen
    = Ok Toy.student_stage2 /\
  factor (sch_cfg (scheduler (r_world Toy.student_stage1))) = qc 1 10 /\
  patience (sch_cfg (scheduler (r_world Toy.student_stage1))) = 3 /\
  factor (sch_cfg (scheduler (r_world Toy.student_stage2))) = qc 1 10 /\
  patience (sch_cfg (scheduler (r_world Toy.student_stage2))) = 2.
Proof.
  assert (Student.stage1 Toy.loaders Toy.dataset_sizes 1 Toy.net Toy.net
            (Some "best.pth") Toy.fs0 = Ok Toy.student_stage1) as H1
    by (unfold Toy.student_stage1; run_by @get_Ok).
  assert (Student.unfreeze Toy.student_stage1 = Ok Toy.student_unfrozen) as H2
    by (unfold Toy.student_unfrozen; run_by @get_Ok).
  assert (Student.stage2 Toy.loaders Toy.dataset_sizes 1 Toy.student_unfrozen
          = Ok Toy.student_stage2) as H3
    by (unfold Toy.student_stage2; run_by @get_Ok).
  destruct (@plateau_schedulers_as_constructed Toy.framework) as (Hs1 & Hs2).
  pose proof H1 as H1'. rewrite <- (stage1_of_student _ _ true) in H1'.
  destruct (Hs1 TrainPy true _ _ _ _ _ _ _ _ H1') as (_ & Hp1 & Hf1).
  destruct (Hs2 TrainPy _ _ _ _ _ _ H2 H3) as (Hp2 & Hf2).
  split; [exact H1|]. split; [exact H2|]. split; [exact H3|].
  split; [exact Hf1|]. split; [exact Hp1|]. split; [exact Hf2|exact Hp2].
Defined.

(** C8, as stated, fails: [train_kd] takes one epoch count.  Called with
    1 it runs one epoch in each stage, and no call of it runs one epoch in
    stage 1 and two in stage 2. *)
Lemma train_kd_cannot_run_one_then_two_epochs :
  runs_stage_epochs Toy.student_stage1 Toy.student_stages 1 1 /\
  ~ exists epochs r1 r3,
      Student.stage1 Toy.loaders Toy.dataset_sizes epochs Toy.net Toy.net
        (Some "best.pth") Toy.fs0 = Ok r1 /\
      Student.stages Toy.loaders Toy.dataset_sizes epochs Toy.net Toy.net
        (Some "best.pth") Toy.fs0 = Ok r3 /\
      runs_stage_epochs r1 r3 1 2.
Proof.
  split; [split; vm_compute; reflexivity|].
  intros (epochs & r1 & r3 & H1 & H3 & [Ha Hb]).
  destruct (student_stages_epochs_run _ _ _ _ _ _ _ _ _ H1 H3) as [Ha' Hb'].
  lia.
Qed.

(** C8, as amended.  [training] takes a frozen-stage and an
    unfrozen-stage epoch count: its stage 1 runs the runner for
    [epochs_freeze] epochs, and its stage-2 call runs it for
    [epochs_unfreeze] epochs.  [train_kd] takes a single count and runs
    both stages for that many epochs. *)
Theorem stages_run_for_the_counts_passed `{F : Framework} :
  (forall cuda loaders dataset_sizes epochs_freeze teacher path fs r1,
     Teacher.stage1 cuda loaders dataset_sizes epochs_freeze teacher path fs = Ok r1 ->
     epochs_run (r_log r1) = epochs_freeze) /\
  (forall loaders dataset_sizes epochs_unfreeze r2 r3,
     Teacher.stage2 loaders dataset_sizes epochs_unfreeze r2 = Ok r3 ->
     epochs_run (r_log r3) = epochs_run (r_log r2) + epochs_unfreeze) /\
  (forall loaders dataset_sizes epochs student teacher path fs r1 r3,
     Student.stage1 loaders dataset_sizes epochs student teacher path fs = Ok r1 ->
     Student.stages loaders dataset_sizes epochs student teacher path fs = Ok r3 ->
     runs_stage_epochs r1 r3 epochs epochs).
Proof.
  split; [|split].
  - intros * H. by apply (stage1_epochs_run _ _ TeacherTrainPy cuda _ teacher teacher) in H.
  - intros * H. by apply (stage2_epochs_run _ _ TeacherTrainPy) in H.
  - intros * H1 H3. by eapply student_stages_epochs_run.
Qed.

Lemma stages_run_for_the_counts_passed_witness :
  Teacher.stage1 true Toy.loaders Toy.dataset_sizes 1 Toy.net (Some "best.pth") Toy.fs0
    = Ok Toy.teacher_stage1 /\
  Teacher.stage2 Toy.loaders Toy.dataset_sizes 2 Toy.teacher_stage1 = Ok Toy.teacher_stage2 /\
  Student.stage1 Toy.loaders Toy.dataset_sizes 1 Toy.net Toy.net (Some "best.pth") Toy.fs0
    = Ok Toy.student_stage1 /\
  Student.stages Toy.loaders Toy.dataset_sizes 1 Toy.net Toy.net (Some "best.pth") Toy.fs0
    = Ok Toy.student_stages /\
  epochs_run (r_log Toy.teacher_stage1) = 1 /\
  epochs_run (r_log Toy.teacher_stage2) = epochs_run (r_log Toy.teacher_stage1) + 2 /\
  runs_stage_epochs Toy.student_stage1 Toy.student_stages 1 1.
Proof.
  assert (Teacher.stage1 true Toy.loaders Toy.dataset_sizes 1 Toy.net (Some "best.pth")
            Toy.fs0 = Ok Toy.teacher_stage1) as T1
    by (unfold Toy.teacher_stage1; run_by @get_Ok).
  assert (Teacher.stage2 Toy.loaders Toy.dataset_sizes 2 Toy.teacher_stage1
          = Ok Toy.teacher_stage2) as T2
    by (unfold Toy.teacher_stage2; run_by @get_Ok).
  assert (Student.stage1 Toy.loaders Toy.dataset_sizes 1 Toy.net Toy.net
            (Some "best.pth") Toy.fs0 = Ok Toy.student_stage1) as S1
    by (unfold Toy.student_stage1; run_by @get_Ok).
  assert (Student.stages Toy.loaders Toy.dataset_sizes 1 Toy.net Toy.net
            (Some "best.pth") Toy.fs0 = Ok Toy.student_stages) as S3
    by (unfold Toy.student_stages; run_by @get_Ok).
  destruct (@stages_run_for_the_counts_passed Toy.framework) as (Ht1 & Ht2 & Hs).
  split; [exact T1|]. split; [exact T2|]. split; [exact S1|]. split; [exact S3|].
  split; [exact (Ht1 _ _ _ _ _ _ _ _ T1)|].
  split; [exact (Ht2 _ _ _ _ _ T2)|exact (Hs _ _ _ _ _ _ _ _ _ S1 S3)].
Defined.

Lemma student_reload_restores_best_witness :
  Student.stage1 Toy.loaders Toy.dataset_sizes 1 Toy.net Toy.net (Some "best.pth") Toy.fs0
    = Ok Toy.student_stage1 /\
  exists r2,
    Student.unfreeze Toy.student_stage1 = Ok r2 /\
    state_dict (model (r_world r2)) = obj_weights (r_best Toy.student_stage1).
Proof.
  assert (Student.stage1 Toy.loaders Toy.dataset_sizes 1 Toy.net Toy.net
            (Some "best.pth") Toy.fs0 = Ok Toy.student_stage1) as H1
    by (unfold Toy.student_stage1; run_by @get_Ok).
  split; [exact H1|].
  destruct (student_reload_restores_best _ _ _ _ _ _ _ _ H1) as (r2 & H2 & Hsd & _).
  exists r2. split; [exact H2|exact Hsd].
Defined.

Lemma train_sched_witness :
  train_of TrainPy Toy.loaders Toy.dataset_sizes 4 "best.pth" Toy.best0 Toy.world0
    = Ok (Toy.four_epochs TrainPy) /\
  length (sched_metrics (Toy.four_epochs TrainPy).2) = 4 /\
  sched_by_phase Val (Toy.four_epochs TrainPy).2
    = map (fun x => (Train, x)) (sched_metrics (Toy.four_epochs TrainPy).2).
Proof.
  assert (train_of TrainPy Toy.loaders Toy.dataset_sizes 4 "best.pth" Toy.best0 Toy.world0
          = Ok ((Toy.four_epochs TrainPy).1.1, (Toy.four_epochs TrainPy).1.2,
                (Toy.four_epochs TrainPy).2)) as Hrun
    by (unfold Toy.four_epochs; run_by @get_Ok3).
  destruct (train_sched _ _ _ _ _ _ _ _ _ _ Hrun) as (Hlen & _ & Hph).
  split; [unfold Toy.four_epochs; run_by @get_Ok|].
  split; [exact Hlen|exact (Hph Val)].
Defined.

(** ** When a runner invocation completes *)

Section Completion.
Context {F : Framework}.
Variable loaders : Phase -> list Batch.
Variable dataset_sizes : Phase -> nat.

Lemma forallb_negb_existsb {A} (f : A -> bool) (l : list A) :
  forallb (fun x => negb (f x)) l = negb (existsb f l).
Proof. induction l as [|x l IH]; [done|]. simpl. rewrite IH. by destruct (f x). Qed.

Lemma existsb_flags (ps qs : list Param) :
  length qs = length ps ->
  (forall i p q, ps !! i = Some p -> qs !! i = Some q ->
     p_requires_grad q = p_requires_grad p) ->
  existsb p_requires_grad qs = existsb p_requires_grad ps.
Proof.
  revert qs. induction ps as [|p ps IH]; intros [|q qs] Hl H; try done.
  simpl. rewrite (H 0 p q eq_refl eq_refl).
  f_equal. apply IH; [by injection Hl|].
  intros i p' q' Hp Hq. exact (H (S i) p' q' Hp Hq).
Qed.

Lemma stable_has_trainable w w' :
  stable w w' -> has_trainable (model w') = has_trainable (model w).
Proof.
  intros ([Hl K] & _). unfold has_trainable.
  apply existsb_flags; [done|].
  intros i p q Hp Hq. by destruct (K i p q Hp Hq) as (_ & _ & ? & _).
Qed.

Lemma parent_exists_dirs (fs fs' : FS) path :
  dirs fs' = dirs fs -> parent_exists fs' path = parent_exists fs path.
Proof. intros E. unfold parent_exists, isdir. by rewrite E. Qed.

Lemma torch_save_Ok (fs fs' : FS) sd path :
  torch_save fs sd path = Ok fs' ->
  parent_exists fs path = true /\ dirs fs' = dirs fs /\
  files fs' = <[path := sd]> (files fs).
Proof.
  unfold torch_save. destruct (parent_exists fs path); [|done].
  by intros [= <-].
Qed.




(** What the running count of correct predictions can be at the end of
    the batch loop. *)
Lemma run_batches_count ph bs rl rc w r w' ev :
  run_batches ph bs rl rc w = Ok (r, w', ev) ->
  (bs = [] -> r.2 = rc) /\
  (bs <> [] -> exists c, r.2 = Some c) /\
  default 0 r.2 <= default 0 rc + total_examples bs.
Proof.
  revert rl rc w r w' ev. induction bs as [|b bs IH]; intros rl rc w r w' ev.
  - intros [= <- <- <-]. simpl. split; [done|]. split; [done|lia].
  - cbn [run_batches]. intros H.
    apply bind_Ok in H as ([] & w1 & ev1 & ev2 & _ & H & ->).
    apply bind_Ok in H as (m & w2 & ev3 & ev4 & Hg & H & ->).
    apply bind_Ok in H as ([] & w3 & ev5 & ev6 & _ & H & ->).
    apply IH in H as (H0 & H1 & H2).
    split; [done|]. split.
    + intros _. destruct bs as [|b' bs'].
      * rewrite H0 by done. by eexists.
      * apply H1. done.
    + simpl in *. unfold batch_corrects in H2.
      match type of H2 with
      | (_ <= _ + ?k + _)%nat => assert (k <= length b)%nat by apply length_filter
      end.
      lia.
Qed.


End Completion.

Section CompletionOfRuns.
Context {F : Framework}.
Variable loaders : Phase -> list Batch.
Variable dataset_sizes : Phase -> nat.

(** A phase that completes has seen a batch and divides by a positive
    size. *)
Lemma run_phase_inv src ph w l a w' ev :
  run_phase_of src loaders dataset_sizes ph w = Ok ((l, a), w', ev) ->
  exists rl c w1 evb,
    run_batches ph (loaders ph) 0%Qc None (with_mode (is_train ph) w)
      = Ok ((rl, Some c), w1, evb) /\
    0 < dataset_sizes ph /\
    a = (Qc_of_nat c / Qc_of_nat (dataset_sizes ph))%Qc.
Proof.
  intros H.
  assert (exists rl rc w1 evb l' x,
    run_batches ph (loaders ph) 0%Qc None (with_mode (is_train ph) w)
      = Ok ((rl, rc), w1, evb) /\
    float_div rl (dataset_sizes ph) = Ok l' /\
    double rc = Ok x /\ a = (x / Qc_of_nat (dataset_sizes ph))%Qc)
    as (rl & rc & w1 & evb & l' & x & Hb & Hl & Hd & ->).
  { destruct src; unfold run_phase_of, Student.run_phase, Teacher.run_phase in H;
      apply bind_Ok in H as ([] & w0 & ev0 & ev0' & Hm & H & ->);
      rewrite set_mode_spec in Hm; injection Hm as <- <-;
      apply bind_Ok in H as ([rl rc] & w1 & evb & ev1' & Hb & H & ->).
    - apply bind_Ok in H as ([] & w2 & ev2 & ev2' & _ & H & ->).
      apply bind_Ok in H as (l' & w4 & ev4 & ev4' & Hl & H & ->).
      apply lift_Ok in Hl as (Hl & -> & ->).
      apply bind_Ok in H as (x & w5 & ev5 & ev5' & Hd & H & ->).
      apply lift_Ok in Hd as (Hd & -> & ->).
      apply bind_Ok in H as ([] & w6 & ev6 & ev6' & _ & H & ->).
      apply ret_Ok in H as ([= -> ->] & _).
      by exists rl, rc, w1, evb, l', x.
    - apply bind_Ok in H as (l' & w4 & ev4 & ev4' & Hl & H & ->).
      apply lift_Ok in Hl as (Hl & -> & ->).
      apply bind_Ok in H as (x & w5 & ev5 & ev5' & Hd & H & ->).
      apply lift_Ok in Hd as (Hd & -> & ->).
      apply bind_Ok in H as ([] & w2 & ev2 & ev2' & _ & H & ->).
      apply bind_Ok in H as ([] & w6 & ev6 & ev6' & _ & H & ->).
      apply ret_Ok in H as ([= -> ->] & _).
      by exists rl, rc, w1, evb, l', x. }
  destruct rc as [c|]; [|done]. injection Hd as <-.
  exists rl, c, w1, evb. split; [done|]. split; [|done].
  unfold float_div in Hl. destruct (dataset_sizes ph); [done|lia].
Qed.



(** One epoch, taken apart into its two phases and their best-state
    updates. *)
Lemma run_epoch_inv src path best w best' w' ev :
  run_epoch_of src loaders dataset_sizes path best w = Ok (best', w', ev) ->
  exists l1 a1 w1 ev1 best1 w2 ev2 l2 a2 w3 ev3 ev4,
    run_phase_of src loaders dataset_sizes Train w = Ok ((l1, a1), w1, ev1) /\
    match src with
    | TrainPy => Student.update_best
    | TeacherTrainPy => Teacher.update_best
    end Train a1 path best w1 = Ok (best1, w2, ev2) /\
    run_phase_of src loaders dataset_sizes Val w2 = Ok ((l2, a2), w3, ev3) /\
    match src with
    | TrainPy => Student.update_best
    | TeacherTrainPy => Teacher.update_best
    end Val a2 path best1 w3 = Ok (best', w', ev4) /\
    ev = (ev1 ++ ev2) ++ (ev3 ++ ev4).
Proof.
  intros H.
  destruct src; unfold run_epoch_of, Student.run_epoch, Teacher.run_epoch,
    Student.phase_iter, Teacher.phase_iter in H;
    apply bind_Ok in H as (best1 & w2 & e12 & e34 & H1 & H2 & ->);
    apply bind_Ok in H1 as ([l1 a1] & w1 & ev1 & ev2 & Ht & Hu1 & ->);
    apply bind_Ok in H2 as ([l2 a2] & w3 & ev3 & ev4 & Hv & Hu2 & ->);
    by exists l1, a1, w1, ev1, best1, w2, ev2, l2, a2, w3, ev3, ev4.
Qed.






End CompletionOfRuns.

(** ** The file system and the best-state along a run *)

Section DiskAndBest.
Context {F : Framework}.
Variable loaders : Phase -> list Batch.
Variable dataset_sizes : Phase -> nat.

Lemma bind_Raise {A B} (m : M A) (k : A -> M B) w e :
  m w = Raise e -> bind m k w = Raise e.
Proof. intros H. unfold bind. by rewrite H. Qed.

(** What a runner invocation does to the file system, and how that
    relates to the best-state it returns. *)
Lemma train_disk_inv src n path best w best' w' ev :
  train_of src loaders dataset_sizes n path best w = Ok (best', w', ev) ->
  dirs (disk w') = dirs (disk w) /\
  (forall p, p <> path -> files (disk w') !! p = files (disk w) !! p) /\
  (saves ev <> [] ->
     files (disk w') !! path = Some (obj_weights best'.1) /\
     (best.2 < best'.2)%Qc /\
     parent_exists (disk w) path = true) /\
  (saves ev = [] -> disk w' = disk w /\ best' = best).
Proof.
  revert n best w best' w' ev. apply train_of_ind.
  { intros best w. repeat split; try done. }
  intros n best w best1 w1 ev1 best2 w2 ev2 He Ht (IHd & IHo & IHs & IHn).
  pose proof (train_monotone _ _ _ _ _ _ _ _ _ _ Ht) as Hmono.
  apply run_epoch_shape in He
    as (c & rl & l1 & l2 & av & wb & evb & sv & _ & Hc & _ & Hdisk).
  assert (saves ev1 = saves sv) as Hsv.
  { rewrite saves_coarse, Hc. done. }
  rewrite saves_app.
  assert (dirs (disk w1) = dirs (disk w) /\
          (forall p, p <> path -> files (disk w1) !! p = files (disk w) !! p) /\
          (saves ev1 <> [] ->
             files (disk w1) !! path = Some (obj_weights best1.1) /\
             (best.2 < best1.2)%Qc /\ parent_exists (disk w) path = true) /\
          (saves ev1 = [] -> disk w1 = disk w /\ best1 = best))
    as (E1d & E1o & E1s & E1n).
  { rewrite Hsv. destruct Hdisk as [(Hlt & -> & -> & Hsave)|(Hn & -> & -> & Hd)].
    - apply torch_save_Ok in Hsave as (Hp & Hdirs & Hfiles).
      split; [done|]. rewrite Hfiles. split; [|split; [|done]].
      + intros p Hp'. by rewrite lookup_insert_ne.
      + intros _. cbn [fst snd]. rewrite lookup_insert_eq, obj_weights_snapshot. done.
    - rewrite Hd. repeat split; done. }
  split; [congruence|]. split; [intros p Hp; by rewrite IHo, E1o|].
  split.
  - intros Hne. destruct (saves ev2) as [|s2 l2'] eqn:Es2.
    + rewrite app_nil_r in Hne. destruct (IHn eq_refl) as [-> ->].
      by apply E1s.
    + destruct IHs as (Hf & Hlt & Hp); [done|]. split; [done|]. split.
      * destruct (saves ev1) as [|s1 l1'] eqn:Es1.
        -- by destruct (E1n eq_refl) as [_ <-].
        -- destruct E1s as (_ & Hlt1 & _); [done|]. by etrans.
      * by rewrite <- (parent_exists_dirs _ _ _ E1d).
  - intros Hnil. apply app_eq_nil in Hnil as [Hn1 Hn2].
    destruct (IHn Hn2) as [-> ->]. by apply E1n.
Qed.

(** The counts of a run of [n] epochs. *)
Lemma train_counts src n path best w best' w' ev :
  train_of src loaders dataset_sizes n path best w = Ok (best', w', ev) ->
  length (val_accs ev) = n /\ length (printed_pcts Train ev) = n /\
  length (saves ev) <= n.
Proof.
  revert n best w best' w' ev. apply train_of_ind; [done|].
  intros n best w best1 w1 ev1 best2 w2 ev2 He _ (IH1 & IH2 & IH3).
  apply run_epoch_shape, epoch_shape_readings in He
    as (c & av & _ & _ & Hp & _ & _ & _ & Hv & Hcase).
  rewrite val_accs_app, printed_pcts_app, saves_app, !length_app, Hv, Hp, IH1, IH2.
  split; [done|]. split; [done|].
  destruct Hcase as [(_ & _ & ->)|(_ & _ & ->)]; simpl; lia.
Qed.

(** X12.  The best accuracy a runner invocation returns is the maximum of
    the incoming best accuracy and the validation accuracies of the run:
    it bounds every one of them, and it is the incoming one or one of
    them. *)
Lemma train_max src n path best w best' w' ev :
  train_of src loaders dataset_sizes n path best w = Ok (best', w', ev) ->
  Forall (fun a => (a <= best'.2)%Qc) (val_accs ev) /\
  (best'.2 = best.2 \/ best'.2 ∈ val_accs ev).
Proof.
  revert n best w best' w' ev. apply train_of_ind.
  { intros. split; [constructor|by left]. }
  intros n best w best1 w1 ev1 best2 w2 ev2 He Ht (IH1 & IH2).
  pose proof (train_monotone _ _ _ _ _ _ _ _ _ _ Ht) as Hmono.
  apply run_epoch_shape, epoch_shape_readings in He
    as (c & av & _ & _ & _ & _ & _ & _ & Hv & Hcase).
  rewrite val_accs_app, Hv. cbn [app].
  destruct Hcase as [(Hlt & -> & _)|(Hn & -> & _)]; cbn [snd] in *.
  - split; [by constructor|]. right.
    destruct IH2 as [->|Hin]; [by left|by right].
  - split.
    + constructor; [|done]. eapply Qcle_trans; [|exact Hmono].
      by apply Qcnot_lt_le.
    + destruct IH2 as [->|Hin]; [by left|right; by right].
Qed.

(** After an epoch the model is in evaluation mode. *)
Lemma run_epoch_mode src path best w best' w' ev :
  run_epoch_of src loaders dataset_sizes path best w = Ok (best', w', ev) ->
  training (model w') = false.
Proof.
  intros H. apply run_epoch_inv in H
    as (l1 & a1 & w1 & ev1 & best1 & w2 & ev2 & l2 & a2 & w3 & ev3 & ev4 &
        _ & _ & Hv & Hu & _).
  destruct (run_phase_val loaders dataset_sizes src w2) as (w3' & evz & Hf & _ & Hv').
  rewrite Hv in Hv'. destruct (val_metrics _ _ _) as [[l a]|e]; [|done].
  injection Hv' as _ _ -> _.
  apply update_best_spec in Hu as (Hm & _). rewrite Hm.
  by destruct Hf as (_ & -> & _).
Qed.

Lemma train_mode src n path best w best' w' ev :
  train_of src loaders dataset_sizes (S n) path best w = Ok (best', w', ev) ->
  training (model w') = false.
Proof.
  revert best w best' w' ev. induction n as [|n IH]; intros best w best' w' ev H;
    assert (bind (run_epoch_of src loaders dataset_sizes path best)
                 (fun b => train_of src loaders dataset_sizes _ path b) w
            = Ok (best', w', ev)) as Hb by (by destruct src);
    apply bind_Ok in Hb as (best1 & w1 & ev1 & ev2 & He & Ht & ->).
  - assert (ret best1 w1 = Ok (best', w', ev2)) as Hr by (by destruct src).
    apply ret_Ok in Hr as (_ & -> & _). by eapply run_epoch_mode.
  - by eapply IH.
Qed.

Lemma teacher_best_in_eval_mode n path best w best' w' ev :
  train_of TeacherTrainPy loaders dataset_sizes n path best w = Ok (best', w', ev) ->
  saves ev <> [] -> exists m, best'.1 = ObjModule m /\ training m = false.
Proof.
  revert n best w best' w' ev.
  apply (train_of_ind loaders dataset_sizes TeacherTrainPy path
           (fun _ _ _ best' _ ev =>
              saves ev <> [] -> exists m, best'.1 = ObjModule m /\ training m = false));
    [done|].
  intros n best w best1 w1 ev1 best2 w2 ev2 He Ht IH Hne.
  destruct (saves ev2) as [|s l] eqn:Es; [|by apply IH].
  apply train_best in Ht as (_ & _ & _ & Hsame & _). rewrite (Hsame Es).
  rewrite saves_app, Es, app_nil_r in Hne.
  pose proof (run_epoch_mode _ _ _ _ _ _ _ He) as Hmode.
  apply run_epoch_shape, epoch_shape_readings in He
    as (c & av & _ & _ & _ & _ & _ & _ & _ & Hcase).
  destruct Hcase as [(_ & -> & _)|(_ & _ & Hs)]; [|done].
  by exists (model w1).
Qed.

End DiskAndBest.

(** ** Where the two controllers end *)

Section ControllerOutcomes.
Context {F : Framework}.
Variable loaders : Phase -> list Batch.
Variable dataset_sizes : Phase -> nat.





End ControllerOutcomes.

Lemma train_max_witness :
  train_of TeacherTrainPy Toy.loaders Toy.dataset_sizes 4 "best.pth" Toy.best0 Toy.world0
    = Ok (Toy.four_epochs TeacherTrainPy) /\
  Forall (fun a => (a <= (Toy.four_epochs TeacherTrainPy).1.1.2)%Qc)
         (val_accs (Toy.four_epochs TeacherTrainPy).2) /\
  (Toy.four_epochs TeacherTrainPy).1.1.2 ∈ val_accs (Toy.four_epochs TeacherTrainPy).2.
Proof.
  assert (train_of TeacherTrainPy Toy.loaders Toy.dataset_sizes 4 "best.pth"
            Toy.best0 Toy.world0
          = Ok ((Toy.four_epochs TeacherTrainPy).1.1, (Toy.four_epochs TeacherTrainPy).1.2,
                (Toy.four_epochs TeacherTrainPy).2)) as Hrun
    by (unfold Toy.four_epochs; run_by @get_Ok3).
  destruct (train_max _ _ _ _ _ _ _ _ _ _ Hrun) as (Hall & Hin).
  split; [unfold Toy.four_epochs; run_by @get_Ok|]. split; [exact Hall|].
  destruct Hin as [Heq|Hin]; [|exact Hin].
  apply (f_equal this) in Heq. vm_compute in Heq. discriminate Heq.
Defined.

(** ** Completion and errors of the runner *)



(** X6.  A train loader that yields no batch: the runner of [train.py]
    raises [AttributeError] in the first train phase (line 50 calls
    [.double()] on the float [0.0]), whatever the phase sizes; the runner
    of [teacher_train.py] divides first (line 54) and raises
    [ZeroDivisionError] when the train size is 0, [AttributeError]
    otherwise. *)
Theorem empty_train_loader_raises `{F : Framework}
    loaders dataset_sizes n path best w :
  loaders Train = [] ->
  train_of TrainPy loaders dataset_sizes (S n) path best w
    = Raise (AttributeError "double") /\
  train_of TeacherTrainPy loaders dataset_sizes (S n) path best w
    = Raise (if decide (dataset_sizes Train = 0)
             then ZeroDivisionError else AttributeError "double").
Proof.
  intros H. split.
  - cbn [train_of Student.train].
    unfold Student.run_epoch, Student.phase_iter, Student.run_phase.
    rewrite H. reflexivity.
  - cbn [train_of Teacher.train].
    unfold Teacher.run_epoch, Teacher.phase_iter, Teacher.run_phase.
    rewrite H. destruct (dataset_sizes Train); reflexivity.
Qed.

Lemma empty_train_loader_raises_witness :
  train_of TrainPy Edge.no_train_batches Edge.zero_train_size 1 "best.pth"
    Toy.best0 Toy.world0 = Raise (AttributeError "double") /\
  train_of TeacherTrainPy Edge.no_train_batches Edge.zero_train_size 1 "best.pth"
    Toy.best0 Toy.world0 = Raise ZeroDivisionError.
Proof.
  exact (empty_train_loader_raises Edge.no_train_batches Edge.zero_train_size 0
           "best.pth" Toy.best0 Toy.world0 eq_refl).
Defined.

Lemma bind_Ok_Raise `{F : Framework} {A B} (m : M A) (k : A -> M B) w a w1 ev1 e :
  m w = Ok (a, w1, ev1) -> k a w1 = Raise e -> bind m k w = Raise e.
Proof. intros H1 H2. unfold bind. by rewrite H1, H2. Qed.

Lemma run_batches_frozen `{F : Framework} b bs rl rc w :
  has_trainable (model w) = false ->
  run_batches Train (b :: bs) rl rc w
    = Raise (RuntimeError "element 0 of tensors does not require grad").
Proof.
  intros H. destruct (zero_grad_spec w) as (w1 & Hz & Hf).
  rewrite <- (stable_has_trainable _ _ (frozen_stable _ _ Hf)) in H.
  cbn [run_batches]. eapply bind_Ok_Raise; [exact Hz|].
  eapply bind_Ok_Raise; [reflexivity|].
  apply bind_Raise. change (is_train Train) with true. cbv iota.
  apply bind_Raise. unfold backward. fold (has_trainable (model w1)) in H.
  unfold has_trainable in H. by rewrite forallb_negb_existsb, H.
Qed.

(** X7.  A model none of whose parameters requires a gradient: as soon as
    the train loader yields a batch, the runner of either file raises
    [RuntimeError] at the first [loss.backward()], before any optimizer
    step, scheduler step or checkpoint write. *)
Theorem frozen_model_raises_at_first_backward `{F : Framework}
    src loaders dataset_sizes n path best w :
  loaders Train <> [] ->
  has_trainable (model w) = false ->
  train_of src loaders dataset_sizes (S n) path best w
    = Raise (RuntimeError "element 0 of tensors does not require grad").
Proof.
  intros Hl Hf. destruct (loaders Train) as [|b bs] eqn:E; [done|].
  assert (forall k : Qc * option nat -> M (Qc * Qc),
            bind (set_mode true)
                 (fun _ => bind (run_batches Train (b :: bs) 0%Qc None) k) w
            = Raise (RuntimeError "element 0 of tensors does not require grad")) as H.
  { intros k. eapply bind_Ok_Raise; [apply set_mode_spec|].
    apply bind_Raise. by apply run_batches_frozen. }
  destruct src.
  - cbn [train_of Student.train]. do 3 apply bind_Raise.
    unfold Student.run_phase. rewrite E. apply H.
  - cbn [train_of Teacher.train]. do 3 apply bind_Raise.
    unfold Teacher.run_phase. rewrite E. apply H.
Qed.

Lemma frozen_model_raises_at_first_backward_witness :
  train_of TeacherTrainPy Toy.loaders Toy.dataset_sizes 2 "best.pth" Toy.best0
    Edge.frozen_world
  = Raise (RuntimeError "element 0 of tensors does not require grad").
Proof.
  apply (frozen_model_raises_at_first_backward TeacherTrainPy Toy.loaders
           Toy.dataset_sizes 1 "best.pth" Toy.best0 Edge.frozen_world).
  - discriminate.
  - reflexivity.
Defined.

(** ** The checkpoint file *)

(** X8.  What a runner invocation of [n] epochs does to the file system:
    it creates no directory, touches no file but the checkpoint path,
    writes that path at most [n] times, and after any write the file
    holds the weights of the best-state it returns; without a write the
    file system is the one it started on. *)
Theorem runner_file_system_effect `{F : Framework}
    src loaders dataset_sizes n path best w best' w' ev :
  train_of src loaders dataset_sizes n path best w = Ok (best', w', ev) ->
  dirs (disk w') = dirs (disk w) /\
  (forall p, p <> path -> files (disk w') !! p = files (disk w) !! p) /\
  length (saves ev) <= n /\
  (saves ev <> [] -> files (disk w') !! path = Some (obj_weights best'.1)) /\
  (saves ev = [] -> disk w' = disk w).
Proof.
  intros H.
  destruct (train_disk_inv _ _ _ _ _ _ _ _ _ _ H) as (Hd & Ho & Hs & Hn).
  destruct (train_counts _ _ _ _ _ _ _ _ _ _ H) as (_ & _ & Hc).
  split; [done|]. split; [done|]. split; [done|]. split.
  - intros Hne. by destruct (Hs Hne).
  - intros Hnil. by destruct (Hn Hnil).
Qed.

Lemma runner_file_system_effect_witness :
  train_of TrainPy Toy.loaders Toy.dataset_sizes 4 "best.pth" Toy.best0 Toy.world0
    = Ok (Toy.four_epochs TrainPy) /\
  length (saves (Toy.four_epochs TrainPy).2) <= 4 /\
  files (disk (Toy.four_epochs TrainPy).1.2) !! "best.pth"
    = Some (obj_weights (Toy.four_epochs TrainPy).1.1.1).
Proof.
  assert (train_of TrainPy Toy.loaders Toy.dataset_sizes 4 "best.pth"
            Toy.best0 Toy.world0
          = Ok ((Toy.four_epochs TrainPy).1.1, (Toy.four_epochs TrainPy).1.2,
                (Toy.four_epochs TrainPy).2)) as Hrun
    by (unfold Toy.four_epochs; run_by @get_Ok3).
  destruct (runner_file_system_effect _ _ _ _ _ _ _ _ _ _ Hrun)
    as (_ & _ & Hc & Hs & _).
  split; [unfold Toy.four_epochs; run_by @get_Ok|].
  split; [exact Hc|]. apply Hs.
  intros Hnil. apply (f_equal length) in Hnil. vm_compute in Hnil. discriminate Hnil.
Defined.

(** X16.  A checkpoint path whose directory does not exist: a runner
    invocation can only complete without any improvement; it then
    returns the best-state it was given and leaves the file system as it
    was.  (The first improving validation phase raises in [torch.save].) *)
Theorem unwritable_path_allows_no_improvement `{F : Framework}
    src loaders dataset_sizes n path best w best' w' ev :
  parent_exists (disk w) path = false ->
  train_of src loaders dataset_sizes n path best w = Ok (best', w', ev) ->
  saves ev = [] /\ best' = best /\ disk w' = disk w.
Proof.
  intros Hp H.
  destruct (train_disk_inv _ _ _ _ _ _ _ _ _ _ H) as (_ & _ & Hs & Hn).
  destruct (saves ev) as [|s l] eqn:E.
  - destruct (Hn eq_refl) as [-> ->]. done.
  - destruct Hs as (_ & _ & Hp'); [done|]. congruence.
Qed.

Lemma unwritable_path_allows_no_improvement_witness :
  parent_exists (disk Toy.world0) "Weights/Net.pth" = false /\
  train_of TrainPy Toy.loaders Toy.dataset_sizes 2 "Weights/Net.pth" Edge.unbeatable
    Toy.world0 = Ok (Edge.unwritable_run TrainPy) /\
  (Edge.unwritable_run TrainPy).1.1 = Edge.unbeatable /\
  disk (Edge.unwritable_run TrainPy).1.2 = disk Toy.world0.
Proof.
  assert (parent_exists (disk Toy.world0) "Weights/Net.pth" = false) as Hp
    by (vm_compute; reflexivity).
  assert (train_of TrainPy Toy.loaders Toy.dataset_sizes 2 "Weights/Net.pth"
            Edge.unbeatable Toy.world0
          = Ok ((Edge.unwritable_run TrainPy).1.1, (Edge.unwritable_run TrainPy).1.2,
                (Edge.unwritable_run TrainPy).2)) as Hrun
    by (unfold Edge.unwritable_run; run_by @get_Ok3).
  destruct (unwritable_path_allows_no_improvement _ _ _ _ _ _ _ _ _ _ Hp Hrun)
    as (_ & Hb & Hd).
  split; [exact Hp|].
  split; [unfold Edge.unwritable_run; run_by @get_Ok|].
  split; [exact Hb|exact Hd].
Defined.

(** X13.  After a runner invocation of at least one epoch the live model
    is in evaluation mode (the last phase of every epoch is [val]); and
    the module [teacher_train.py] keeps as best once a checkpoint has been
    written is a copy taken in evaluation mode. *)
Theorem runner_leaves_eval_mode `{F : Framework}
    src loaders dataset_sizes n path best w best' w' ev :
  train_of src loaders dataset_sizes (S n) path best w = Ok (best', w', ev) ->
  training (model w') = false /\
  (src = TeacherTrainPy -> saves ev <> [] ->
   exists m, best'.1 = ObjModule m /\ training m = false).
Proof.
  intros H. split; [by eapply train_mode|].
  intros -> Hne. by eapply teacher_best_in_eval_mode.
Qed.

Lemma runner_leaves_eval_mode_witness :
  train_of TeacherTrainPy Toy.loaders Toy.dataset_sizes 2 "best.pth" Toy.best0 Toy.world0
    = Ok (Edge.two_epochs TeacherTrainPy) /\
  training (model Toy.world0) = true /\
  training (model (Edge.two_epochs TeacherTrainPy).1.2) = false /\
  exists m, (Edge.two_epochs TeacherTrainPy).1.1.1 = ObjModule m /\ training m = false.
Proof.
  assert (train_of TeacherTrainPy Toy.loaders Toy.dataset_sizes 2 "best.pth"
            Toy.best0 Toy.world0
          = Ok ((Edge.two_epochs TeacherTrainPy).1.1, (Edge.two_epochs TeacherTrainPy).1.2,
                (Edge.two_epochs TeacherTrainPy).2)) as Hrun
    by (unfold Edge.two_epochs; run_by @get_Ok3).
  destruct (runner_leaves_eval_mode _ _ _ _ _ _ _ _ _ _ Hrun) as (Hm & Hb).
  split; [unfold Edge.two_epochs; run_by @get_Ok|].
  split; [reflexivity|]. split; [exact Hm|]. apply Hb; [reflexivity|].
  intros Hnil. apply (f_equal length) in Hnil. vm_compute in Hnil. discriminate Hnil.
Defined.

Lemma Qc_lt_irrefl (x : Qc) : ~ (x < x)%Qc.
Proof. apply Qcle_not_lt, Qcle_refl. Qed.

(** X9.  When both stages of [train_kd] have completed, the checkpoint
    file holds the best weights over both stages as soon as any
    validation accuracy was positive; with a best accuracy of 0 nothing
    was ever kept, and the best-state is still the initial copy of the
    student's weights. *)
Theorem train_kd_checkpoint_file_is_overall_best `{F : Framework}
    loaders dataset_sizes epochs student teacher path_save_weight fs r3 :
  Student.stages loaders dataset_sizes epochs student teacher path_save_weight fs = Ok r3 ->
  ((0 < r_best_acc r3)%Qc ->
   files (disk (r_world r3)) !! r_path r3 = Some (obj_weights (r_best r3))) /\
  (r_best_acc r3 = 0%Qc -> obj_weights (r_best r3) = state_dict student).
Proof.
  unfold Student.stages. intros H.
  apply rbind_Ok in H as (r1 & H1 & H). apply rbind_Ok in H as (r2 & H2 & H3).
  apply student_stage1_inv in H1 as (fs1 & scope & opt & _ & _ & _ & Ht1).
  apply (unfreeze_of_inv TrainPy) in H2 as (m & opt2 & _ & _ & Hw & Hp & Hb & Ha & _).
  apply (stage2_of_inv _ _ TrainPy) in H3 as (ev & Ht2 & Hp3 & _).
  rewrite Hb, Ha, Hp in Ht2. rewrite Hp3, Hp.
  pose proof (train_monotone _ _ _ _ _ _ _ _ _ _ Ht1) as M1.
  pose proof (train_monotone _ _ _ _ _ _ _ _ _ _ Ht2) as M2.
  destruct (train_disk_inv _ _ _ _ _ _ _ _ _ _ Ht1) as (_ & _ & S1 & N1).
  destruct (train_disk_inv _ _ _ _ _ _ _ _ _ _ Ht2) as (_ & _ & S2 & N2).
  cbn [fst snd] in *.
  assert (disk (r_world r2) = disk (r_world r1)) as Hd by (by rewrite Hw).
  destruct (saves ev) as [|s2 l2] eqn:E2.
  - destruct (N2 eq_refl) as [D2 [= -> ->]]. rewrite D2, Hd.
    destruct (saves (r_log r1)) as [|s1 l1] eqn:E1.
    + destruct (N1 eq_refl) as [_ [= -> ->]]. split; [|done].
      intros Hlt. by apply Qc_lt_irrefl in Hlt.
    + destruct S1 as (Hf & Hlt & _); [done|]. split; [done|].
      intros E0. rewrite E0 in Hlt. by apply Qc_lt_irrefl in Hlt.
  - destruct S2 as (Hf & Hlt & _); [done|]. split; [done|].
    intros E0. rewrite E0 in Hlt.
    exfalso. eapply Qc_lt_irrefl, Qcle_lt_trans; [exact M1|exact Hlt].
Qed.

Lemma train_kd_checkpoint_file_is_overall_best_witness :
  Student.stages Toy.loaders Toy.dataset_sizes 1 Toy.net Toy.net (Some "best.pth") Toy.fs0
    = Ok Toy.student_stages /\
  files (disk (r_world Toy.student_stages)) !! r_path Toy.student_stages
    = Some (obj_weights (r_best Toy.student_stages)).
Proof.
  assert (Student.stages Toy.loaders Toy.dataset_sizes 1 Toy.net Toy.net
            (Some "best.pth") Toy.fs0 = Ok Toy.student_stages) as Hrun
    by (unfold Toy.student_stages; run_by @get_Ok).
  split; [exact Hrun|].
  apply (train_kd_checkpoint_file_is_overall_best _ _ _ _ _ _ _ _ Hrun).
  apply (bool_decide_unpack _). vm_compute. exact I.
Defined.

(** ** Where the two controllers end, exactly *)





(** ** The accuracy of a phase *)

Lemma Qc_of_nat_le (c n : nat) : c <= n -> (Qc_of_nat c <= Qc_of_nat n)%Qc.
Proof.
  intros H. unfold Qcle, Qc_of_nat. simpl. rewrite !Qred_correct.
  unfold Qle. simpl. lia.
Qed.

Lemma Qc_of_nat_pos (n : nat) : 0 < n -> (0 < Qc_of_nat n)%Qc.
Proof.
  intros H. unfold Qclt, Qc_of_nat. simpl. rewrite !Qred_correct.
  unfold Qlt. simpl. lia.
Qed.

Lemma Qc_div_le_mono (x y z : Qc) : (0 < z)%Qc -> (x <= y)%Qc -> (x / z <= y / z)%Qc.
Proof.
  intros Hz Hxy. unfold Qcdiv. apply Qcmult_le_compat_r; [done|].
  by apply Qclt_le_weak, Qcinv_pos.
Qed.

(** X14.  The accuracy a phase reports is the number of correct
    predictions over [dataset_sizes[phase]]: it is never negative, never
    more than the number of examples the loader yields over that size,
    and so at most 1 whenever the loader yields no more examples than
    [dataset_sizes] says. *)
Theorem epoch_accuracy_bounds `{F : Framework}
    src loaders dataset_sizes ph w l a w' ev :
  run_phase_of src loaders dataset_sizes ph w = Ok ((l, a), w', ev) ->
  (0 <= a)%Qc /\
  (a <= Qc_of_nat (total_examples (loaders ph)) / Qc_of_nat (dataset_sizes ph))%Qc /\
  (total_examples (loaders ph) <= dataset_sizes ph -> (a <= 1)%Qc).
Proof.
  intros H. apply run_phase_inv in H as (rl & c & w1 & evb & Hb & Hs & ->).
  apply run_batches_count in Hb as (_ & _ & Hc). simpl in Hc.
  pose proof (Qc_of_nat_pos _ Hs) as Hpos.
  assert (Qc_of_nat (dataset_sizes ph) / Qc_of_nat (dataset_sizes ph) = 1)%Qc as E1.
  { unfold Qcdiv. apply Qcmult_inv_r. intros E. rewrite E in Hpos.
    by apply Qc_lt_irrefl in Hpos. }
  split; [|split].
  - replace 0%Qc with (Qc_of_nat 0 / Qc_of_nat (dataset_sizes ph))%Qc
      by (unfold Qcdiv; apply Qcmult_0_l).
    apply Qc_div_le_mono; [done|]. apply Qc_of_nat_le. lia.
  - apply Qc_div_le_mono; [done|]. by apply Qc_of_nat_le.
  - intros Hle. rewrite <- E1. apply Qc_div_le_mono; [done|]. apply Qc_of_nat_le. lia.
Qed.

Lemma epoch_accuracy_bounds_witness :
  run_phase_of TrainPy Toy.loaders Toy.dataset_sizes Val Toy.world0
    = Ok (Toy.one_val_phase TrainPy) /\
  (0 <= (Toy.one_val_phase TrainPy).1.1.2)%Qc /\
  ((Toy.one_val_phase TrainPy).1.1.2 <= 1)%Qc.
Proof.
  assert (run_phase_of TrainPy Toy.loaders Toy.dataset_sizes Val Toy.world0
          = Ok (((Toy.one_val_phase TrainPy).1.1.1, (Toy.one_val_phase TrainPy).1.1.2),
                (Toy.one_val_phase TrainPy).1.2, (Toy.one_val_phase TrainPy).2)) as Hrun.
  { unfold Toy.one_val_phase. run_by @get_Ok4. }
  destruct (epoch_accuracy_bounds _ _ _ _ _ _ _ _ _ Hrun) as (H0 & _ & H1).
  split; [unfold Toy.one_val_phase; run_by @get_Ok|].
  split; [exact H0|]. apply H1. simpl. lia.
Defined.

(** ** The default checkpoint path of [training] *)



(** ** Set-up errors of the two controllers *)

(** X17.  With a checkpoint path given, [train_kd] fails during set-up,
    before any epoch, on a student without a [head] child
    ([AttributeError] on line 84) and on one whose [head] owns no
    parameter ([ValueError] from the optimizer's constructor). *)
Theorem train_kd_setup_errors `{F : Framework}
    loaders dataset_sizes epochs student teacher path fs :
  ("head" ∉ children student ->
   Student.train_kd loaders dataset_sizes epochs student teacher (Some path) fs
     = Raise (AttributeError "head")) /\
  ("head" ∈ children student -> owned_by "head" student = [] ->
   Student.train_kd loaders dataset_sizes epochs student teacher (Some path) fs
     = Raise (ValueError "optimizer got an empty parameter list")).
Proof.
  unfold Student.train_kd, Student.stages, Student.stage1, Student.resolve_path,
    Student.head_parameters.
  split.
  - intros H. by rewrite bool_decide_false.
  - intros H E. rewrite bool_decide_true by done. cbn [rbind]. by rewrite E.
Qed.

Lemma train_kd_setup_errors_witness :
  Student.train_kd Toy.loaders Toy.dataset_sizes 1 Edge.headless_net Toy.net
    (Some "best.pth") Toy.fs0 = Raise (AttributeError "head") /\
  Student.train_kd Toy.loaders Toy.dataset_sizes 1 Edge.empty_head_net Toy.net
    (Some "best.pth") Toy.fs0 = Raise (ValueError "optimizer got an empty parameter list").
Proof.
  split.
  - apply (proj1 (train_kd_setup_errors Toy.loaders Toy.dataset_sizes 1
                    Edge.headless_net Toy.net "best.pth" Toy.fs0)).
    apply (bool_decide_unpack _). vm_compute. exact I.
  - apply (proj2 (train_kd_setup_errors Toy.loaders Toy.dataset_sizes 1
                    Edge.empty_head_net Toy.net "best.pth" Toy.fs0)).
    + apply (bool_decide_unpack _). vm_compute. exact I.
    + reflexivity.
Defined.

(** X18.  With a CUDA device and a checkpoint path given, [training]
    fails during set-up, before any epoch, on a teacher without children
    ([IndexError] from [list(teacher.children())[-1]], line 88) and on one
    whose last child owns no parameter ([ValueError] from the optimizer's
    constructor). *)
Theorem training_setup_errors `{F : Framework}
    loaders dataset_sizes epochs_freeze epochs_unfreeze teacher path fs :
  (children teacher = [] ->
   Teacher.training true loaders dataset_sizes epochs_freeze epochs_unfreeze teacher
     (Some path) fs = Raise IndexError) /\
  (forall c, list.last (children teacher) = Some c -> owned_by c teacher = [] ->
   Teacher.training true loaders dataset_sizes epochs_freeze epochs_unfreeze teacher
     (Some path) fs = Raise (ValueError "optimizer got an empty parameter list")).
Proof.
  unfold Teacher.training, Teacher.stages, Teacher.stage1, Teacher.resolve_path,
    Teacher.get_device_name, Teacher.last_child_parameters.
  split.
  - intros E. by rewrite E.
  - intros c Hc E. rewrite Hc. cbn [rbind]. by rewrite E.
Qed.

Lemma training_setup_errors_witness :
  Teacher.training true Toy.loaders Toy.dataset_sizes 1 1 Edge.childless_net
    (Some "best.pth") Toy.fs0 = Raise IndexError /\
  Teacher.training true Toy.loaders Toy.dataset_sizes 1 1 Edge.empty_head_net
    (Some "best.pth") Toy.fs0 = Raise (ValueError "optimizer got an empty parameter list").
Proof.
  split.
  - apply (proj1 (training_setup_errors Toy.loaders Toy.dataset_sizes 1 1
                    Edge.childless_net "best.pth" Toy.fs0)).
    reflexivity.
  - apply (proj2 (training_setup_errors Toy.loaders Toy.dataset_sizes 1 1
                    Edge.empty_head_net "best.pth" Toy.fs0) "head"); reflexivity.
Defined.
